(** * library-api: user service, review service and genre controller

    A shallow embedding of the request handlers of
    [src/api/services/user.js], [src/api/services/review.js] and the genre
    controller, over in-memory collections that stand for the document store.

    Conventions of the embedding
    - a collection is the list of its documents, in natural (insertion) order;
      an ObjectId is a [nat], compared the way the handlers compare ids
      ([toString] on both sides, then [===]);
    - a handler takes the collections it reads, the parts of the request it
      looks at, and returns the collections it wrote together with what it
      did to the response;
    - store calls succeed unless the handler itself can make them fail
      (a document rejected by schema validation on [save]);
    - code of the repository that the handlers call but that is not part of
      the three files (model methods, [user_utils]) is kept apart and marked. *)

From Stdlib Require Import List String ZArith Bool Arith Lia.
From Stdlib Require Import Sorted Ascii.
Import ListNotations.
Open Scope string_scope.

(** ** JavaScript values as far as the handlers inspect them *)

Module Js.

(** A parsed JSON field of a request body. Objects and arrays are only ever
    tested for truthiness, so they are one opaque case. *)
Inductive value : Type :=
| Undefined
| Null
| Bool (b : bool)
| Num (n : Z)
| Str (s : string)
| Object.

(** [if (v)] / [!v] *)
Definition truthy (v : value) : bool :=
  match v with
  | Undefined | Null => false
  | Bool b => b
  | Num n => negb (Z.eqb n 0)
  | Str s => negb (String.eqb s "")
  | Object => true
  end.

(** A field that is either absent or a string. *)
Definition of_field (f : option string) : value :=
  match f with
  | None => Undefined
  | Some s => Str s
  end.

Definition present (f : option string) : bool := truthy (of_field f).

(** The string held by a field that passed a truthiness test. *)
Definition text (f : option string) : string :=
  match f with
  | None => ""
  | Some s => s
  end.

(** [t > Date.now()] for a stored date-or-null [t]: a date compares by its
    millisecond value, [null] converts to [0]. *)
Definition gt_now (t : option Z) (now : Z) : bool :=
  match t with
  | Some ms => Z.ltb now ms
  | None => Z.ltb now 0
  end.

End Js.

(** ** What a handler does to the response *)

Module Http.

Inductive error : Type :=
| TypeError            (* property read on null *)
| HeadersSent          (* a second response on the same request *)
| ValidationError      (* a document rejected on save *)
| AppError (msg : string)
| StrategyError (msg : string).

(** The outcome of a handler that leaves through exactly one
    [return res...] (a status with a body, or a redirect) or one [next(err)]. *)
Inductive reply (B : Type) : Type :=
| Send (status : nat) (body : B)
| RedirectTo (url : string)
| Forward (e : error).

Arguments Send {B} status body.
Arguments RedirectTo {B} url.
Arguments Forward {B} e.

(** The response object, for a handler that may touch it more than once:
    what went out to the client, and the error handed to [next], if any. *)
Record res (B : Type) : Type := mkRes {
  sent : option (nat * B);
  forwarded : option error
}.

Arguments mkRes {B} sent forwarded.
Arguments sent {B} r.
Arguments forwarded {B} r.

Definition fresh {B : Type} : res B := mkRes None None.

(** [res.status(code).json(body)] as the last statement of a [try] whose
    [catch] is [next(err)]: on a response that already went out the call
    throws, and the error is forwarded. *)
Definition json {B : Type} (code : nat) (body : B) (r : res B) : res B :=
  match sent r with
  | None => mkRes (Some (code, body)) (forwarded r)
  | Some _ => mkRes (sent r) (Some HeadersSent)
  end.

Definition status_of {B : Type} (r : res B) : option nat :=
  match sent r with
  | None => None
  | Some (code, _) => Some code
  end.

End Http.

Import Http.

(** ** The User collection *)

Module User.

Record doc : Type := mk {
  _id : nat;
  username : string;
  email : string;
  first_name : string;
  family_name : string;
  hash : string;
  user_type : string;
  suspended : bool;
  suspension_timeline : option Z;
  follower_count : nat;
  following : list nat;
  followers : list nat;   (* the path the follow handlers' count query reads *)
  favorites : list nat
}.

Definition collection : Type := list doc.

Definition has_id (id : nat) (d : doc) : bool := Nat.eqb (_id d) id.

(** [User.findById(id)] *)
Definition findById (c : collection) (id : nat) : option doc :=
  find (has_id id) c.

(** [User.findOne({ username })] *)
Definition findOne_username (c : collection) (name : string) : option doc :=
  find (fun d => String.eqb (username d) name) c.

(** Writing some paths of the document with a given id. *)
Definition update_by_id (f : doc -> doc) (id : nat) (c : collection) : collection :=
  map (fun d => if has_id id d then f d else d) c.

Definition mem (id : nat) (ids : list nat) : bool := existsb (Nat.eqb id) ids.

(** [User.countDocuments({ followers: { $in: ids } })]: the documents whose
    [followers] array holds one of [ids]. *)
Definition countDocuments_followers_in (c : collection) (ids : list nat) : nat :=
  List.length (filter (fun d => existsb (fun i => mem i (followers d)) ids) c).

(** The object sent as [req.body.user] to the profile update, as an object
    of plain field values: every schema path but [_id] may be present. A
    body that holds update operators ([$inc], [$push], ...) is not of this
    type. *)
Record patch : Type := mkPatch {
  p_username : option string;
  p_email : option string;
  p_first_name : option string;
  p_family_name : option string;
  p_hash : option string;
  p_user_type : option string;
  p_suspended : option bool;
  p_suspension_timeline : option (option Z);
  p_follower_count : option nat;
  p_following : option (list nat);
  p_followers : option (list nat);
  p_favorites : option (list nat)
}.

Definition or_keep {A : Type} (new : option A) (old : A) : A :=
  match new with
  | Some a => a
  | None => old
  end.

Definition apply_patch (p : patch) (d : doc) : doc :=
  mk (_id d)
     (or_keep (p_username p) (username d))
     (or_keep (p_email p) (email d))
     (or_keep (p_first_name p) (first_name d))
     (or_keep (p_family_name p) (family_name d))
     (or_keep (p_hash p) (hash d))
     (or_keep (p_user_type p) (user_type d))
     (or_keep (p_suspended p) (suspended d))
     (or_keep (p_suspension_timeline p) (suspension_timeline d))
     (or_keep (p_follower_count p) (follower_count d))
     (or_keep (p_following p) (following d))
     (or_keep (p_followers p) (followers d))
     (or_keep (p_favorites p) (favorites d)).

(** [User.findByIdAndUpdate(id, update, { new: true })]: the collection
    after the write and the document as it is afterwards. *)
Definition findByIdAndUpdate (c : collection) (id : nat) (p : patch)
  : collection * option doc :=
  let c' := update_by_id (apply_patch p) id c in
  (c', findById c' id).

Definition set_following (l : list nat) (d : doc) : doc :=
  mk (_id d) (username d) (email d) (first_name d) (family_name d) (hash d)
     (user_type d) (suspended d) (suspension_timeline d) (follower_count d)
     l (followers d) (favorites d).

Definition set_follower_count (n : nat) (d : doc) : doc :=
  mk (_id d) (username d) (email d) (first_name d) (family_name d) (hash d)
     (user_type d) (suspended d) (suspension_timeline d) n
     (following d) (followers d) (favorites d).

Definition set_user_type (t : string) (d : doc) : doc :=
  mk (_id d) (username d) (email d) (first_name d) (family_name d) (hash d)
     t (suspended d) (suspension_timeline d) (follower_count d)
     (following d) (followers d) (favorites d).

Definition set_unsuspended (d : doc) : doc :=
  mk (_id d) (username d) (email d) (first_name d) (family_name d) (hash d)
     (user_type d) false None (follower_count d)
     (following d) (followers d) (favorites d).

(** *** Model methods and helpers that live outside the three files *)

(** Modelled from the spec: the [isFollowing] method of the User model,
    which is not among the sources; the spec gives a user a set of
    [following], and the handler asks it whether the target is a member. *)
Definition isFollowing (d : doc) (id : nat) : bool := mem id (following d).

(** Modelled from the spec: the [follow] method of the User model
    (missing); "follow/unfollow mutate a relation on the acting user": the
    target joins the acting user's [following] set and the acting user is
    saved. *)
Definition followed (d target : doc) : doc :=
  set_following (if isFollowing d (_id target)
                 then following d
                 else (following d ++ [_id target])%list) d.

Definition follow (c : collection) (d target : doc) : collection :=
  update_by_id (set_following (following (followed d target))) (_id d) c.

(** Modelled from the spec: the [unfollow] method of the User model
    (missing): the target leaves the acting user's [following] set and the
    acting user is saved. *)
Definition unfollowed (d target : doc) : doc :=
  set_following
    (filter (fun i => negb (Nat.eqb i (_id target))) (following d)) d.

Definition unfollow (c : collection) (d target : doc) : collection :=
  update_by_id (set_following (following (unfollowed d target))) (_id d) c.

(** Modelled from the spec: the [updateFollowerCount] method of the User
    model (missing): stores the given number as the document's denormalized
    [follower_count]. *)
Definition updateFollowerCount (c : collection) (d : doc) (count : nat) : collection :=
  update_by_id (set_follower_count count) (_id d) c.

(** Modelled from the spec: [user_utils.unsuspend_user] (missing); it
    un-suspends the user, which the profile fetch of the same service
    spells [{ suspended: false, suspension_timeline: null }]. *)
Definition unsuspend_user (c : collection) (id : nat) : collection :=
  update_by_id set_unsuspended id c.

(** The number of users who follow [id]: membership of [id] in their
    [following] sets. This is the quantity the spec calls the follower
    count recomputed from set membership. *)
Definition follower_number (c : collection) (id : nat) : nat :=
  List.length (filter (fun d => isFollowing d id) c).

(** The stored [follower_count] of the user [id]. *)
Definition stored_follower_count (c : collection) (id : nat) : option nat :=
  option_map follower_count (findById c id).

(** A fresh ObjectId for a new document. *)
Definition fresh_id (c : collection) : nat := S (list_max (map _id c)).

End User.

(** ** The user service ([src/api/services/user.js]) *)

Module UserService.

(** What the handlers put in a response; the JSON shaping of a document
    ([toAuthJsonFor], [toObjectJsonFor]) is the model's and is not unfolded. *)
Inductive body : Type :=
| ErrorMessage (message : string)
| AuthInfo (info : string)
| Empty
| AuthJson (user : User.doc)
| FollowJson (user target_user : User.doc).

(** The three ways the credential strategy calls back: [(err)],
    [(null, false, info)] and [(null, user)]. *)
Inductive auth_result : Type :=
| AuthError (err : error)
| AuthRejected (info : string)
| AuthUser (user : User.doc).

(** What the service takes from the User model and from the
    authentication library, none of which is in the three files. *)
Class Deps : Type := {
  (* [new User({})]: the schema defaults of a new document *)
  defaults : User.doc;
  (* [setPassword]: the stored hash of a password *)
  setPassword : string -> string;
  (* whether [save] accepts a new document (validators, unique indexes) *)
  save_ok : User.collection -> User.doc -> bool;
  (* the 'local' strategy: email and password to a callback *)
  local_strategy : User.collection -> string -> string -> auth_result
}.

(** [req.body.user] of a signup: the five text fields are strings or
    absent, the two flags are any JSON value. *)
Record signup_body : Type := mkSignup {
  username : option string;
  password : option string;
  email : option string;
  first_name : option string;
  family_name : option string;
  give_admin_priviledges : Js.value;
  give_mod_priviledges : Js.value
}.

Definition required_complete (u : signup_body) : bool :=
  Js.present (username u) && Js.present (password u) && Js.present (email u)
  && Js.present (first_name u) && Js.present (family_name u).

(** Lines 32-47: the document [signup] builds before saving it. *)
Definition new_user {D : Deps} (c : User.collection) (u : signup_body) : User.doc :=
  let user :=
    User.mk (User.fresh_id c)
            (Js.text (username u)) (Js.text (email u))
            (Js.text (first_name u)) (Js.text (family_name u))
            (setPassword (Js.text (password u)))
            (User.user_type defaults) (User.suspended defaults)
            (User.suspension_timeline defaults) (User.follower_count defaults)
            (User.following defaults) (User.followers defaults)
            (User.favorites defaults) in
  let user :=
    if Js.truthy (give_admin_priviledges u)
    then User.set_user_type "admin" user else user in
  let user :=
    if Js.truthy (give_mod_priviledges u)
    then User.set_user_type "moderator" user else user in
  user.

Definition signup {D : Deps} (c : User.collection) (body_user : option signup_body)
  : User.collection * reply body :=
  match body_user with
  | None =>
      (c, Send 400 (ErrorMessage "You need to supply the user object with this request"))
  | Some u =>
      if negb (Js.present (username u))
         || negb (Js.present (password u))
         || negb (Js.present (email u))
         || negb (Js.present (first_name u))
         || negb (Js.present (family_name u))
      then (c, Send 400 (ErrorMessage "Required form values need to be complete!"))
      else
        let user := new_user c u in
        if save_ok c user
        then ((c ++ [user])%list, Send 200 (AuthJson user))
        else (c, Forward ValidationError)
  end.

(** [req.body.user] of a login. *)
Record credentials : Type := mkCredentials {
  cred_email : option string;
  cred_password : option string
}.

(** Lines 73-85: the callback given to the strategy. [now] is [Date.now()]. *)
Definition login_callback (c : User.collection) (now : Z) (r : auth_result)
  : User.collection * reply body :=
  match r with
  | AuthError err => (c, Forward err)
  | AuthRejected info => (c, Send 422 (AuthInfo info))
  | AuthUser user =>
      let c' :=
        if User.suspended user && Js.gt_now (User.suspension_timeline user) now
        then User.unsuspend_user c (User._id user)
        else c in
      (c', Send 200 (AuthJson user))
  end.

Definition login {D : Deps} (c : User.collection) (now : Z)
           (body_user : option credentials) : User.collection * reply body :=
  match body_user with
  | None =>
      (c, Send 400 (ErrorMessage "You need to supply the user object with this request"))
  | Some u =>
      if negb (Js.present (cred_email u))
      then (c, Send 422 (ErrorMessage "Email can't be blank"))
      else if negb (Js.present (cred_password u))
      then (c, Send 422 (ErrorMessage "Password can't be blank"))
      else login_callback c now
             (local_strategy c (Js.text (cred_email u)) (Js.text (cred_password u)))
  end.

(** [update]: [params_id] is [req.params.id], [payload_id] the id in the
    verified token. The refusal on line 128 is not returned, so the
    handler goes on with the response already out. *)
Definition update (c : User.collection) (params_id payload_id : nat)
           (body_user : option User.patch) : User.collection * res body :=
  match body_user with
  | None =>
      (c, json 400 (ErrorMessage "You need to supply the user object with this request") fresh)
  | Some p =>
      match User.findById c params_id with
      | None => (c, mkRes None (Some TypeError))
      | Some request_user =>
          let res1 :=
            if negb (Nat.eqb (User._id request_user) payload_id)
            then json 400 (ErrorMessage "Cannot edit another user's profile!") fresh
            else fresh in
          let '(c', user) := User.findByIdAndUpdate c payload_id p in
          match user with
          | None => (c', json 401 Empty res1)
          | Some user => (c', json 200 (AuthJson user) res1)
          end
      end
  end.

(** [follow]: [user_id] is the id in the token, [params_id] the target. *)
Definition follow (c : User.collection) (user_id params_id : nat)
  : User.collection * reply body :=
  let user := User.findById c user_id in
  let target_user := User.findById c params_id in
  match user with
  | None => (c, Send 401 Empty)
  | Some user =>
      match target_user with
      | None => (c, Forward TypeError)
      | Some target_user =>
          if User.isFollowing user (User._id target_user)
          then (c, Forward (AppError "You are already following this user"))
          else
            let c1 := User.follow c user target_user in
            let count := User.countDocuments_followers_in c1 [User._id user] in
            let c2 := User.updateFollowerCount c1 target_user count in
            (c2, Send 200 (FollowJson (User.followed user target_user)
                                      (User.set_follower_count count target_user)))
      end
  end.

Definition unfollow (c : User.collection) (user_id params_id : nat)
  : User.collection * reply body :=
  let user := User.findById c user_id in
  let target_user := User.findById c params_id in
  match user with
  | None => (c, Send 401 Empty)
  | Some user =>
      match target_user with
      | None => (c, Forward TypeError)
      | Some target_user =>
          if negb (User.isFollowing user (User._id target_user))
          then (c, Forward (AppError "You don't follow this user"))
          else
            let c1 := User.unfollow c user target_user in
            let count := User.countDocuments_followers_in c1 [User._id user] in
            let c2 := User.updateFollowerCount c1 target_user count in
            (c2, Send 200 (FollowJson (User.unfollowed user target_user)
                                      (User.set_follower_count count target_user)))
      end
  end.

(** What [suspend] puts in a response. *)
Inductive suspend_body : Type :=
| SuspendEmpty
| SuspendError (message : string)
| ObjectJson (user viewer : User.doc).

(** What [suspend] takes from [user_utils], which is not in the three
    files. *)
Class SuspendDeps : Type := {
  (* [user_utils.suspend_user(id)] at time [now]: the collection after the
     write and the document the call resolves to *)
  suspend_user : User.collection -> Z -> nat -> User.collection * option User.doc
}.

(** [suspend]: [payload_id] is the id in the token, [params_id] the user to
    suspend. *)
Definition suspend {U : SuspendDeps} (c : User.collection) (now : Z)
           (payload_id params_id : nat) : User.collection * reply suspend_body :=
  match User.findById c payload_id with
  | None => (c, Send 401 SuspendEmpty)
  | Some super_user =>
      if negb (String.eqb (User.user_type super_user) "admin")
         && negb (String.eqb (User.user_type super_user) "moderator")
      then (c, Send 401 (SuspendError
                  "You have to be an admin or a moderator to perform this action"))
      else
        let '(c', user) := suspend_user c now params_id in
        match user with
        | None => (c', Forward TypeError)
        | Some user => (c', Send 200 (ObjectJson user user))
        end
  end.

End UserService.

(** ** The Review collection *)

Module Review.

Record doc : Type := mk {
  _id : nat;
  content : string;
  tags : list string;
  review_author : nat;     (* the reference to the author's document *)
  book : nat;
  favorite_count : nat;
  createdAt : Z;
  author : option nat      (* the path the list query filters on *)
}.

Definition collection : Type := list doc.

(** The filter object [list] builds: [tags: { $in: [t] }], [author: id],
    [_id: { $in: ids }], each only when set. *)
Record query : Type := mkQuery {
  q_tags : option string;
  q_author : option nat;
  q_id_in : option (list nat)
}.

Definition matches (q : query) (d : doc) : bool :=
  match q_tags q with
  | None => true
  | Some t => existsb (String.eqb t) (tags d)
  end
  && match q_author q with
     | None => true
     | Some a => match author d with
                 | Some a' => Nat.eqb a' a
                 | None => false
                 end
     end
  && match q_id_in q with
     | None => true
     | Some ids => existsb (Nat.eqb (_id d)) ids
     end.

(** [.sort({ createdAt: 'desc' })] *)
Fixpoint insert_desc (d : doc) (l : list doc) : list doc :=
  match l with
  | [] => [d]
  | x :: l' =>
      if Z.ltb (createdAt d) (createdAt x)
      then x :: insert_desc d l'
      else d :: l
  end.

Definition sort_desc (l : list doc) : list doc :=
  fold_right insert_desc [] l.

(** [.limit(+limit)]: no limit when the parameter is absent (the default
    [{}] converts to [NaN]) or zero. *)
Definition limit (n : option nat) (l : list doc) : list doc :=
  match n with
  | None | Some 0 => l
  | Some n => firstn n l
  end.

(** [Review.find(query).limit(l).skip(o).sort({ createdAt: 'desc' })]:
    the store sorts, then skips, then limits. *)
Definition find (c : collection) (q : query) (l : option nat) (o : nat) : list doc :=
  limit l (skipn o (sort_desc (filter (matches q) c))).

(** [Review.count(query)] *)
Definition count (c : collection) (q : query) : nat :=
  List.length (filter (matches q) c).

(** [review.remove()] *)
Definition remove (c : collection) (d : doc) : collection :=
  filter (fun x => negb (Nat.eqb (_id x) (_id d))) c.

Definition findById (c : collection) (id : nat) : option doc :=
  List.find (fun d => Nat.eqb (_id d) id) c.

Definition set_content (s : string) (d : doc) : doc :=
  mk (_id d) s (tags d) (review_author d) (book d) (favorite_count d)
     (createdAt d) (author d).

Definition set_tags (t : list string) (d : doc) : doc :=
  mk (_id d) (content d) t (review_author d) (book d) (favorite_count d)
     (createdAt d) (author d).

(** The order of [createdAt: 'desc']: [a] may come before [b]. *)
Definition newer_first (a b : doc) : Prop :=
  (createdAt b <= createdAt a)%Z.

(** A fresh ObjectId for a new review. *)
Definition fresh_id (c : collection) : nat := S (list_max (map _id c)).

End Review.

(** ** The review service ([src/api/services/review.js]) *)

Module ReviewService.

Inductive body : Type :=
| ErrorMessage (message : string)
| Empty
| ReviewJson (review : Review.doc) (viewer : option User.doc)
| ReviewsJson (reviews : list Review.doc) (viewer : option User.doc)
              (reviewsCount : nat).

(** What the service takes from the object-document mapper. *)
Class Deps : Type := {
  (* [doc.updateOne()] without arguments, on the collection *)
  updateOne : Review.doc -> Review.collection -> Review.collection
}.

(** [req.body.review] of an update. *)
Record patch : Type := mkPatch {
  p_content : option string;
  p_tags : option (list string)
}.

(** [req.review.review_author] as [preloadReview] populated it: the user
    the reference resolves to, or null ([None]) when no such user is stored. *)
Definition populated_author (users : User.collection) (review : Review.doc)
  : option User.doc :=
  User.findById users (Review.review_author review).

(** [update]: [review] is [req.review], preloaded with its author; reading
    [_id] of a null author throws. *)
Definition update {D : Deps} (users : User.collection) (reviews : Review.collection)
           (now : Z) (payload_id : nat) (review : Review.doc)
           (body_review : option patch) : Review.collection * reply body :=
  match body_review with
  | None =>
      (reviews, Send 400 (ErrorMessage "You need to send the review object with this request."))
  | Some p =>
      match populated_author users review with
      | None => (reviews, Forward TypeError)
      | Some review_author =>
          if negb (Nat.eqb (User._id review_author) payload_id)
          then (reviews, Send 403 Empty)
          else
            match User.findById users payload_id with
            | None => (reviews, Forward TypeError)
            | Some user =>
                if User.suspended user || Js.gt_now (User.suspension_timeline user) now
                then (reviews,
                      Send 400 (ErrorMessage "Suspended users cannot make reviews!"))
                else
                  let review :=
                    match p_content p with
                    | Some s => Review.set_content s review
                    | None => review
                    end in
                  let review :=
                    match p_tags p with
                    | Some t => Review.set_tags t review
                    | None => review
                    end in
                  (updateOne review reviews, Send 200 (ReviewJson review (Some user)))
            end
      end
  end.

(** [delete]: the author comparison is evaluated first, so a null author
    throws before the admin test. *)
Definition delete (users : User.collection) (reviews : Review.collection)
           (user_id : nat) (review : Review.doc) : Review.collection * reply body :=
  match User.findById users user_id with
  | None =>
      (reviews, Send 400 (ErrorMessage "The user you requested does not exist!"))
  | Some user =>
      match populated_author users review with
      | None => (reviews, Forward TypeError)
      | Some review_author =>
          if negb (Nat.eqb (User._id review_author) user_id)
             && negb (String.eqb (User.user_type user) "admin")
          then (reviews,
                Send 403 (ErrorMessage
                  "You must either be review creator or an admin to delete this review"))
          else (Review.remove reviews review, Send 204 Empty)
      end
  end.

(** [preloadReview]: the route parameter resolved before the handlers run;
    [inr review] is [req.review = review; next()]. The populated author is
    read through [populated_author] where a handler looks at it. *)
Definition preloadReview (reviews : Review.collection) (id : nat)
  : reply body + Review.doc :=
  match Review.findById reviews id with
  | None =>
      inl (Send 404 (ErrorMessage "The review you are looking for does not exist."))
  | Some review => inr review
  end.

(** The query parameters [list] reads; [None] is [undefined]. *)
Record list_query : Type := mkListQuery {
  limit : option nat;
  offset : option nat;
  tags : option string;
  author : option string;
  favorited : option string
}.

Definition lookup_username (users : User.collection) (name : option string)
  : option User.doc :=
  if Js.present name then User.findOne_username users (Js.text name) else None.

(** Lines 30-63: the filter built from the request. *)
Definition build_query (users : User.collection) (q : list_query) : Review.query :=
  let author := lookup_username users (author q) in
  let favoriter := lookup_username users (favorited q) in
  let q_author :=
    match author with
    | Some a => Some (User._id a)
    | None => None
    end in
  let q_id_in :=
    match favoriter with
    | Some f => Some (User.favorites f)
    | None => if Js.present (favorited q) then Some [] else None
    end in
  Review.mkQuery (tags q) q_author q_id_in.


(** [list]: [payload] is the id in the token of an authenticated request. *)
Definition list (users : User.collection) (reviews : Review.collection)
           (q : list_query) (payload : option nat) : reply body :=
  let query := build_query users q in
  let offset := match offset q with Some o => o | None => 0 end in
  let found := Review.find reviews query (limit q) offset in
  let reviewsCount := Review.count reviews query in
  let user :=
    match payload with
    | Some id => User.findById users id
    | None => None
    end in
  Send 200 (ReviewsJson found user reviewsCount).

End ReviewService.

(** ** The Genre and Book collections *)

Module Genre.

Record doc : Type := mk {
  _id : nat;
  name : string
}.

Definition collection : Type := list doc.

Definition has_id (id : nat) (d : doc) : bool := Nat.eqb (_id d) id.

(** [Genre.findById(id)] *)
Definition findById (c : collection) (id : nat) : option doc :=
  find (has_id id) c.

(** [Genre.findOne({ 'name': name })] *)
Definition findOne_name (c : collection) (n : string) : option doc :=
  find (fun d => String.eqb (name d) n) c.

(** [Genre.findByIdAndRemove(id)] *)
Definition findByIdAndRemove (c : collection) (id : nat) : collection :=
  filter (fun d => negb (has_id id d)) c.

Definition fresh_id (c : collection) : nat := S (list_max (map _id c)).

(** [Genre.findByIdAndUpdate(id, genre, {})]: the collection after the
    write and, as no [new] option is given, the document as it was before. *)
Definition findByIdAndUpdate (c : collection) (id : nat) (genre : doc)
  : collection * option doc :=
  (map (fun d => if has_id id d then genre else d) c, findById c id).

End Genre.

Module Book.

Record doc : Type := mk {
  _id : nat;
  title : string;
  summary : string;
  author : nat;
  genre : list nat;
  reviews : list nat
}.

Definition collection : Type := list doc.

(** [Book.find({ 'genre': id })]: the books whose genre references hold [id]. *)
Definition find_genre (c : collection) (id : nat) : list doc :=
  filter (fun b => existsb (Nat.eqb id) (genre b)) c.

(** [Book.findById(id)]; an [undefined] id finds nothing. *)
Definition findById (c : collection) (id : option nat) : option doc :=
  match id with
  | None => None
  | Some id => find (fun b => Nat.eqb (_id b) id) c
  end.

Definition set_reviews (l : list nat) (b : doc) : doc :=
  mk (_id b) (title b) (summary b) (author b) (genre b) l.

(** [book.reviews.push(id); book.save()] *)
Definition push_review (c : collection) (b : doc) (id : nat) : collection :=
  map (fun x => if Nat.eqb (_id x) (_id b)
                then set_reviews (reviews b ++ [id])%list x
                else x) c.

End Book.

(** ** The genre controller *)

Module GenreController.

(** The locals of a rendered view. *)
Inductive body : Type :=
| GenreForm (title : string) (genre : Genre.doc) (errors : string)
| GenreDelete (title : string) (genre : option Genre.doc) (genre_books : list Book.doc).

(** What the controller takes from the validation middleware and the
    Genre model, none of which is in the file. *)
Class Deps : Type := {
  (* the [notEmpty] validator *)
  notEmpty : string -> bool;
  (* the [escape] and [trim] sanitizers *)
  escape : string -> string;
  trim : string -> string;
  (* the [url] virtual of a genre *)
  url : Genre.doc -> string;
  (* whether [save] accepts a new genre *)
  save_ok : Genre.doc -> bool
}.

(** [req.body.name] as the handler uses it after lines 56-57. *)
Definition sanitized {D : Deps} (name : string) : string := trim (escape name).

(** [genre_create_post]: [name] is [req.body.name] as submitted; the
    validator ran on it before the sanitizers replaced it. A rendered view
    is a response with status 200. *)
Definition genre_create_post {D : Deps} (genres : Genre.collection) (name : string)
  : Genre.collection * reply body :=
  let errors := negb (notEmpty name) in
  let genre := Genre.mk (Genre.fresh_id genres) (sanitized name) in
  if errors
  then (genres, Send 200 (GenreForm "Create Genre" genre "Genre name required"))
  else
    match Genre.findOne_name genres (sanitized name) with
    | Some found_genre => (genres, RedirectTo (url found_genre))
    | None =>
        if save_ok genre
        then ((genres ++ [genre])%list, RedirectTo (url genre))
        else (genres, Forward ValidationError)
    end.

(** [genre_delete_post]: [genreid] is [req.body.genreid]. *)
Definition genre_delete_post (genres : Genre.collection) (books : Book.collection)
           (genreid : nat) : Genre.collection * reply body :=
  let genre := Genre.findById genres genreid in
  let genre_books := Book.find_genre books genreid in
  if Nat.ltb 0 (List.length genre_books)
  then (genres, Send 200 (GenreDelete "Delete Genre" genre genre_books))
  else (Genre.findByIdAndRemove genres genreid, RedirectTo "/catalog/genres").

(** A handler whose database callback can throw: the exception leaves the
    callback instead of reaching [next]. *)
Inductive outcome : Type :=
| Replied (r : reply body)
| Thrown (e : error).

(** [genre_update_post]: [params_id] is [req.params.id], [name] is
    [req.body.name] as submitted. *)
Definition genre_update_post {D : Deps} (genres : Genre.collection)
           (params_id : nat) (name : string) : Genre.collection * outcome :=
  let genre := Genre.mk params_id (sanitized name) in
  let errors := negb (notEmpty name) in
  if errors
  then (genres,
        Replied (Send 200 (GenreForm "Update Genre" genre "Genre must not be empty")))
  else
    let '(genres', thegenre) := Genre.findByIdAndUpdate genres params_id genre in
    match thegenre with
    | None => (genres', Thrown TypeError)
    | Some thegenre => (genres', Replied (RedirectTo (url thegenre)))
    end.

End GenreController.

(** ** Review creation ([create] of [src/api/services/review.js]) *)

Module ReviewCreation.

(** What [create] takes from the Review model, which is not in the three
    files. *)
Class Deps : Type := {
  (* [new Review({})]: the schema defaults of a new document *)
  defaults : Review.doc;
  (* whether [save] accepts a new review *)
  save_ok : Review.doc -> bool
}.

(** [req.body.review] of a create. *)
Record create_body : Type := mkCreate {
  book_id : option nat;
  content : option string;
  tags : option (list string)
}.

(** Lines 136-141: the document [create] builds; [now] stamps [createdAt]. *)
Definition new_review {D : Deps} (reviews : Review.collection) (now : Z)
           (b : create_body) (user : User.doc) (book : Book.doc) : Review.doc :=
  Review.mk (Review.fresh_id reviews)
            (User.or_keep (content b) (Review.content defaults))
            (User.or_keep (tags b) (Review.tags defaults))
            (User._id user)
            (Book._id book)
            (Review.favorite_count defaults)
            now
            (Review.author defaults).

(** [create]: [payload_id] is the id in the token. *)
Definition create {D : Deps} (users : User.collection) (reviews : Review.collection)
           (books : Book.collection) (now : Z) (payload_id : nat)
           (body_review : option create_body)
  : Review.collection * Book.collection * reply ReviewService.body :=
  match body_review with
  | None =>
      (reviews, books,
       Send 400 (ReviewService.ErrorMessage
                   "You need to send the review object with this request."))
  | Some b =>
      let user := User.findById users payload_id in
      let book := Book.findById books (book_id b) in
      match user with
      | None => (reviews, books, Send 401 ReviewService.Empty)
      | Some user =>
          if User.suspended user || Js.gt_now (User.suspension_timeline user) now
          then (reviews, books,
                Send 400 (ReviewService.ErrorMessage
                            "Suspended users cannot make reviews!"))
          else
            match book with
            | None =>
                (reviews, books,
                 Send 400 (ReviewService.ErrorMessage
                             "The book you are trying to review does not exist!"))
            | Some book =>
                let review := new_review reviews now b user book in
                if save_ok review
                then ((reviews ++ [review])%list,
                      Book.push_review books book (Review._id review),
                      Send 201 (ReviewService.ReviewJson review (Some user)))
                else (reviews, books, Forward ValidationError)
            end
      end
  end.

End ReviewCreation.

(** ** Concrete collaborators and collections for the examples *)

Module Sample.

Definition blank : User.doc :=
  User.mk 0 "" "" "" "" "" "plain" false None 0 [] [] [].

(** A strategy that looks the email up and compares hashes. *)
Definition by_email (hashing : string -> string) (c : User.collection)
           (email password : string) : UserService.auth_result :=
  match find (fun d => String.eqb (User.email d) email) c with
  | None => UserService.AuthRejected "email or password is invalid"
  | Some d =>
      if String.eqb (User.hash d) (hashing password)
      then UserService.AuthUser d
      else UserService.AuthRejected "email or password is invalid"
  end.

Definition hashing (password : string) : string := "h:" ++ password.

(** [save] refuses a username or an email that is already taken. *)
Definition unique (c : User.collection) (d : User.doc) : bool :=
  negb (existsb (fun x => String.eqb (User.username x) (User.username d)
                          || String.eqb (User.email x) (User.email d)) c).

Definition user_deps : UserService.Deps :=
  {| UserService.defaults := blank;
     UserService.setPassword := hashing;
     UserService.save_ok := unique;
     UserService.local_strategy := by_email hashing |}.

Definition person (id : nat) (name : string) (type : string) (count : nat)
           (following followers : list nat) : User.doc :=
  User.mk id name (name ++ "@example.org") name "Doe" (hashing "secret")
          type false None count following followers [].

Definition suspended_until (t : Z) (d : User.doc) : User.doc :=
  User.mk (User._id d) (User.username d) (User.email d) (User.first_name d)
          (User.family_name d) (User.hash d) (User.user_type d) true (Some t)
          (User.follower_count d) (User.following d) (User.followers d)
          (User.favorites d).

(** cy and dee follow bob, whose stored count is 2 and whose [followers]
    name the two; ada follows nobody; root is an admin. *)
Definition ada : User.doc := person 1 "ada" "plain" 0 [] [].
Definition bob : User.doc := person 2 "bob" "plain" 2 [] [3; 4].
Definition cy : User.doc := person 3 "cy" "plain" 0 [2] [].
Definition dee : User.doc := person 4 "dee" "plain" 0 [2] [].
Definition root : User.doc := person 5 "root" "admin" 0 [] [].

Definition users : User.collection := [ada; bob; cy; dee; root].

(** zed is suspended, the suspension running until time 2000. *)
Definition zed : User.doc := suspended_until 2000 (person 6 "zed" "plain" 0 [] []).
Definition detained : User.collection := [ada; zed].

Definition zed_login : UserService.credentials :=
  UserService.mkCredentials (Some "zed@example.org") (Some "secret").

Definition signup_with (admin moderator : Js.value) : UserService.signup_body :=
  UserService.mkSignup (Some "eve") (Some "secret") (Some "eve@example.org")
                       (Some "Eve") (Some "Doe") admin moderator.

Definition no_change : User.patch :=
  User.mkPatch None None None None None None None None None None None None.

Definition rename (first : string) : User.patch :=
  User.mkPatch None None (Some first) None None None None None None None None None.

(** Reviews: the first written by ada, the second by bob. *)
Definition review1 : Review.doc := Review.mk 10 "fine" ["novel"] 1 100 0 1000 None.
Definition review2 : Review.doc := Review.mk 11 "dull" ["essay"] 2 100 0 2000 None.
Definition reviews : Review.collection := [review1; review2].

(** [updateOne()] called without an update document: the store receives an
    empty update and no stored review changes. *)
Definition no_write (d : Review.doc) (c : Review.collection) : Review.collection := c.

Definition review_deps : ReviewService.Deps :=
  {| ReviewService.updateOne := no_write |}.

Definition edit : ReviewService.patch :=
  ReviewService.mkPatch (Some "rewritten") None.

Definition fantasy : Genre.doc := Genre.mk 1 "Fantasy".
Definition poetry : Genre.doc := Genre.mk 2 "Poetry".
Definition genres : Genre.collection := [fantasy; poetry].

Definition hobbit : Book.doc := Book.mk 100 "The Hobbit" "There and back" 7 [1] [10; 11].
Definition books : Book.collection := [hobbit].

Definition nonblank (s : string) : bool := negb (String.eqb s "").

(** An [escape] that replaces the characters of HTML markup by entities. *)
Fixpoint html_escape (s : string) : string :=
  match s with
  | EmptyString => EmptyString
  | String c s' =>
      (if Ascii.eqb c "&"%char then "&amp;"
       else if Ascii.eqb c "<"%char then "&lt;"
       else if Ascii.eqb c ">"%char then "&gt;"
       else String c EmptyString) ++ html_escape s'
  end.

Definition genre_deps : GenreController.Deps :=
  {| GenreController.notEmpty := nonblank;
     GenreController.escape := fun s => s;
     GenreController.trim := fun s => s;
     GenreController.url := fun g => "/catalog/genre/" ++ Genre.name g;
     GenreController.save_ok := fun g => Nat.leb 3 (String.length (Genre.name g)) |}.

(** A [suspend_user] that suspends for a week. *)
Definition suspend_for_week (c : User.collection) (now : Z) (id : nat)
  : User.collection * option User.doc :=
  let c' := User.update_by_id (suspended_until (now + 604800000)) id c in
  (c', User.findById c' id).

Definition suspend_deps : UserService.SuspendDeps :=
  {| UserService.suspend_user := suspend_for_week |}.

Definition creation_deps : ReviewCreation.Deps :=
  {| ReviewCreation.defaults := Review.mk 0 "" [] 0 0 0 0 None;
     ReviewCreation.save_ok := fun r => nonblank (Review.content r) |}.

Definition praise : ReviewCreation.create_body :=
  ReviewCreation.mkCreate (Some 100) (Some "a classic") (Some ["novel"]).

Definition escaping_deps : GenreController.Deps :=
  {| GenreController.notEmpty := nonblank;
     GenreController.escape := html_escape;
     GenreController.trim := fun s => s;
     GenreController.url := fun g => "/catalog/genre/" ++ Genre.name g;
     GenreController.save_ok := fun g => Nat.leb 3 (String.length (Genre.name g)) |}.

(** The genre a create request named "R&B" stores. *)
Definition rhythm : Genre.doc := Genre.mk 1 "R&amp;B".

End Sample.

(** * Properties *)

(** ** Signup *)

Section Signup.

Context {D : UserService.Deps}.
Variable c : User.collection.
Variable u : UserService.signup_body.

(** With the five required fields present, [signup] saves exactly the
    document it built, or forwards the error of a refused [save]. *)
Lemma signup_complete :
  UserService.required_complete u = true ->
  UserService.signup c (Some u) =
  if UserService.save_ok c (UserService.new_user c u)
  then ((c ++ [UserService.new_user c u])%list,
        Send 200 (UserService.AuthJson (UserService.new_user c u)))
  else (c, Forward ValidationError).
Proof.
  unfold UserService.required_complete, UserService.signup.
  intros Hreq.
  repeat (apply andb_true_iff in Hreq; destruct Hreq as [Hreq ?]).
  repeat match goal with
         | E : Js.present _ = true |- _ => rewrite E; clear E
         end.
  reflexivity.
Qed.

(** A request with a required field missing saves nothing. *)
Lemma signup_incomplete :
  UserService.required_complete u = false ->
  UserService.signup c (Some u) =
  (c, Send 400 (UserService.ErrorMessage "Required form values need to be complete!")).
Proof.
  unfold UserService.required_complete, UserService.signup.
  destruct (Js.present (UserService.username u)),
           (Js.present (UserService.password u)),
           (Js.present (UserService.email u)),
           (Js.present (UserService.first_name u)),
           (Js.present (UserService.family_name u));
    simpl; intros E; try discriminate E; reflexivity.
Qed.

Lemma new_user_moderator :
  Js.truthy (UserService.give_mod_priviledges u) = true ->
  User.user_type (UserService.new_user c u) = "moderator".
Proof.
  unfold UserService.new_user. intros ->. reflexivity.
Qed.

Lemma new_user_admin :
  Js.truthy (UserService.give_admin_priviledges u) = true ->
  Js.truthy (UserService.give_mod_priviledges u) = false ->
  User.user_type (UserService.new_user c u) = "admin".
Proof.
  unfold UserService.new_user. intros -> ->. reflexivity.
Qed.

Lemma new_user_default :
  Js.truthy (UserService.give_admin_priviledges u) = false ->
  Js.truthy (UserService.give_mod_priviledges u) = false ->
  User.user_type (UserService.new_user c u) = User.user_type UserService.defaults.
Proof.
  unfold UserService.new_user. intros -> ->. reflexivity.
Qed.

End Signup.

(** C1, as amended. A signup with the five required fields present is
    checked against nothing but the request body: [signup] receives no
    requester. The document it saves (whenever [save] accepts it) has
    [user_type] 'moderator' if the body sets [give_mod_priviledges], and
    'admin' if the body sets [give_admin_priviledges] and does not set
    [give_mod_priviledges]. *)
Theorem signup_user_type_from_flags
        (D : UserService.Deps) (c : User.collection) (u : UserService.signup_body) :
  UserService.required_complete u = true ->
  let user := UserService.new_user c u in
  UserService.signup c (Some u) =
    (if UserService.save_ok c user
     then ((c ++ [user])%list, Send 200 (UserService.AuthJson user))
     else (c, Forward ValidationError))
  /\ (Js.truthy (UserService.give_mod_priviledges u) = true ->
      User.user_type user = "moderator")
  /\ (Js.truthy (UserService.give_admin_priviledges u) = true ->
      Js.truthy (UserService.give_mod_priviledges u) = false ->
      User.user_type user = "admin").
Proof.
  intros Hreq user. repeat split.
  - apply signup_complete, Hreq.
  - apply new_user_moderator.
  - apply new_user_admin.
Qed.

Lemma signup_user_type_from_flags_witness :
  UserService.required_complete (Sample.signup_with (Js.Bool true) Js.Undefined) = true
  /\ exists user,
       UserService.signup (D := Sample.user_deps) Sample.users
                          (Some (Sample.signup_with (Js.Bool true) Js.Undefined))
       = ((Sample.users ++ [user])%list, Send 200 (UserService.AuthJson user))
       /\ User.user_type user = "admin".
Proof.
  split; [reflexivity |].
  destruct (signup_user_type_from_flags Sample.user_deps Sample.users
              (Sample.signup_with (Js.Bool true) Js.Undefined) eq_refl)
    as (Hsaved & _ & Hadmin).
  eexists. split; [exact Hsaved | apply Hadmin; reflexivity].
Defined.

(** C1 as stated fails where both flags are set: the body sets
    [give_admin_priviledges], the user is saved, and its [user_type] is not
    'admin'. *)
Lemma signup_admin_flag_not_admin :
  Js.truthy (UserService.give_admin_priviledges
               (Sample.signup_with (Js.Bool true) (Js.Bool true))) = true
  /\ exists user,
       UserService.signup (D := Sample.user_deps) Sample.users
                          (Some (Sample.signup_with (Js.Bool true) (Js.Bool true)))
       = ((Sample.users ++ [user])%list, Send 200 (UserService.AuthJson user))
       /\ User.user_type user <> "admin".
Proof.
  split; [reflexivity |].
  eexists. split; [reflexivity | discriminate].
Qed.

(** C9. A signup with the required fields present that sets both
    [give_admin_priviledges] and [give_mod_priviledges] builds, and on a
    successful [save] stores, a user whose [user_type] is 'moderator': the
    moderator flag is applied second. *)
Theorem signup_both_flags_moderator
        (D : UserService.Deps) (c : User.collection) (u : UserService.signup_body) :
  UserService.required_complete u = true ->
  Js.truthy (UserService.give_admin_priviledges u) = true ->
  Js.truthy (UserService.give_mod_priviledges u) = true ->
  User.user_type (UserService.new_user c u) = "moderator"
  /\ UserService.signup c (Some u) =
     (if UserService.save_ok c (UserService.new_user c u)
      then ((c ++ [UserService.new_user c u])%list,
            Send 200 (UserService.AuthJson (UserService.new_user c u)))
      else (c, Forward ValidationError)).
Proof.
  intros Hreq _ Hmod. split.
  - apply new_user_moderator, Hmod.
  - apply signup_complete, Hreq.
Qed.

Lemma signup_both_flags_moderator_witness :
  UserService.required_complete (Sample.signup_with (Js.Str "yes") (Js.Num 1)) = true
  /\ exists user,
       UserService.signup (D := Sample.user_deps) Sample.users
                          (Some (Sample.signup_with (Js.Str "yes") (Js.Num 1)))
       = ((Sample.users ++ [user])%list, Send 200 (UserService.AuthJson user))
       /\ User.user_type user = "moderator".
Proof.
  split; [reflexivity |].
  destruct (signup_both_flags_moderator Sample.user_deps Sample.users
              (Sample.signup_with (Js.Str "yes") (Js.Num 1)) eq_refl eq_refl eq_refl)
    as (Htype & Hsaved).
  eexists. split; [exact Hsaved | exact Htype].
Defined.

(** ** Writes by id *)

Section UpdateById.

Variable f : User.doc -> User.doc.
Hypothesis f_keeps_id : forall d, User._id (f d) = User._id d.

Lemma findById_update_same (c : User.collection) (id : nat) :
  User.findById (User.update_by_id f id c) id = option_map f (User.findById c id).
Proof.
  unfold User.findById, User.update_by_id.
  induction c as [|d c IH]; simpl; [reflexivity |].
  destruct (User.has_id id d) eqn:E.
  - unfold User.has_id in *. rewrite f_keeps_id, E. reflexivity.
  - rewrite E. exact IH.
Qed.

Lemma findById_update_other (c : User.collection) (id id' : nat) :
  id <> id' ->
  User.findById (User.update_by_id f id c) id' = User.findById c id'.
Proof.
  intros Hne. unfold User.findById, User.update_by_id.
  induction c as [|d c IH]; simpl; [reflexivity |].
  destruct (User.has_id id d) eqn:E.
  - unfold User.has_id in *. rewrite f_keeps_id.
    apply Nat.eqb_eq in E.
    destruct (Nat.eqb (User._id d) id') eqn:E'.
    + apply Nat.eqb_eq in E'. congruence.
    + exact IH.
  - destruct (User.has_id id' d); [reflexivity | exact IH].
Qed.

End UpdateById.

Lemma findById_id (c : User.collection) (id : nat) (d : User.doc) :
  User.findById c id = Some d -> User._id d = id.
Proof.
  unfold User.findById. intros H. apply find_some in H.
  destruct H as [_ H]. apply Nat.eqb_eq, H.
Qed.

Lemma apply_patch_id (p : User.patch) (d : User.doc) :
  User._id (User.apply_patch p d) = User._id d.
Proof. reflexivity. Qed.

(** ** Profile update *)

Section ProfileUpdate.

Variable c : User.collection.
Variables params_id payload_id : nat.
Variable p : User.patch.
Variable request_user : User.doc.
Hypothesis addressed : User.findById c params_id = Some request_user.
Hypothesis foreign : params_id <> payload_id.

(** The refusal goes out with status 400 ... *)
Lemma update_foreign_status :
  status_of (snd (UserService.update c params_id payload_id (Some p))) = Some 400.
Proof.
  unfold UserService.update. rewrite addressed.
  rewrite (findById_id _ _ _ addressed).
  destruct (Nat.eqb params_id payload_id) eqn:E.
  - apply Nat.eqb_eq in E. contradiction.
  - simpl. destruct (User.findById _ payload_id); reflexivity.
Qed.

(** ... the addressed user's document stays as it was ... *)
Lemma update_foreign_addressed_untouched :
  User.findById (fst (UserService.update c params_id payload_id (Some p))) params_id
  = Some request_user.
Proof.
  unfold UserService.update. rewrite addressed. simpl.
  destruct (User.findById _ payload_id); simpl;
    rewrite findById_update_other by (auto using apply_patch_id);
    exact addressed.
Qed.

(** ... and the requester's own document takes the submitted fields. *)
Lemma update_foreign_writes_own :
  fst (UserService.update c params_id payload_id (Some p))
  = User.update_by_id (User.apply_patch p) payload_id c.
Proof.
  unfold UserService.update. rewrite addressed. simpl.
  destruct (User.findById _ payload_id); reflexivity.
Qed.

End ProfileUpdate.

(** C2 (the code departs from it). ada, authenticated with id 1, addresses
    bob's profile (id 2) with a new first name. The response is the 400
    refusal, but the handler runs on: ada's own stored document is
    rewritten, and the second response fails with the first already out. *)
Theorem update_refused_still_writes :
  let c := Sample.users in
  let r := UserService.update c 2 1 (Some (Sample.rename "Mallory")) in
  status_of (snd r) = Some 400
  /\ forwarded (snd r) = Some HeadersSent
  /\ option_map User.first_name (User.findById c 1) = Some "ada"
  /\ option_map User.first_name (User.findById (fst r) 1) = Some "Mallory"
  /\ fst r <> c.
Proof.
  repeat split; discriminate.
Qed.

(** ** Login *)

(** What the login callback does to the collection for a suspended user. *)
Lemma login_callback_suspended (c : User.collection) (now : Z) (user : User.doc) :
  User.suspended user = true ->
  fst (UserService.login_callback c now (UserService.AuthUser user))
  = if Js.gt_now (User.suspension_timeline user) now
    then User.unsuspend_user c (User._id user)
    else c.
Proof.
  intros Hs. unfold UserService.login_callback. rewrite Hs. simpl.
  destruct (Js.gt_now _ _); reflexivity.
Qed.

(** C4 (the code departs from it). zed is suspended until time 2000 and
    logs in with the right password. At time 1000 the window has not
    elapsed, yet the login un-suspends zed; at time 3000 the window has
    elapsed, and the login leaves zed suspended. *)
Theorem login_unsuspends_inside_window :
  let early := UserService.login (D := Sample.user_deps)
                 Sample.detained 1000 (Some Sample.zed_login) in
  let late := UserService.login (D := Sample.user_deps)
                Sample.detained 3000 (Some Sample.zed_login) in
  snd early = Send 200 (UserService.AuthJson Sample.zed)
  /\ snd late = Send 200 (UserService.AuthJson Sample.zed)
  /\ option_map User.suspended (User.findById Sample.detained 6) = Some true
  /\ option_map User.suspended (User.findById (fst early) 6) = Some false
  /\ option_map User.suspended (User.findById (fst late) 6) = Some true.
Proof.
  repeat split.
Qed.

(** ** Follow and unfollow *)

Lemma findById_update_by_id (f : User.doc -> User.doc) (c : User.collection)
      (id id' : nat) :
  (forall d, User._id (f d) = User._id d) ->
  User.findById (User.update_by_id f id c) id'
  = option_map (fun d => if User.has_id id d then f d else d) (User.findById c id').
Proof.
  intros Hf. unfold User.findById, User.update_by_id.
  induction c as [|d c IH]; simpl; [reflexivity |].
  assert (E : User.has_id id' (if User.has_id id d then f d else d) = User.has_id id' d).
  { unfold User.has_id. destruct (Nat.eqb (User._id d) id); [rewrite Hf |]; reflexivity. }
  rewrite E. destruct (User.has_id id' d); [reflexivity | exact IH].
Qed.

(** Saving the acting user's [following] leaves the count query's answer
    as it was: the query reads [followers]. *)
Lemma count_after_set_following (c : User.collection) (l ids : list nat) (id : nat) :
  User.countDocuments_followers_in (User.update_by_id (User.set_following l) id c) ids
  = User.countDocuments_followers_in c ids.
Proof.
  unfold User.countDocuments_followers_in, User.update_by_id.
  induction c as [|d c IH]; simpl; [reflexivity |].
  replace (User.followers (if User.has_id id d then User.set_following l d else d))
    with (User.followers d) by (destruct (User.has_id id d); reflexivity).
  destruct (existsb _ ids); simpl; rewrite IH; reflexivity.
Qed.

Section FollowCount.

Variable c : User.collection.
Variables user_id params_id : nat.
Variables user target_user : User.doc.
Hypothesis acting : User.findById c user_id = Some user.
Hypothesis target : User.findById c params_id = Some target_user.

(** A follow that goes through stores, as the target's [follower_count],
    the number of documents whose [followers] hold the acting user. *)
Lemma follow_stores_count_of_acting_user :
  User.isFollowing user params_id = false ->
  exists b,
    snd (UserService.follow c user_id params_id) = Send 200 b
    /\ User.stored_follower_count (fst (UserService.follow c user_id params_id))
                                  params_id
       = Some (User.countDocuments_followers_in c [user_id]).
Proof.
  intros Hnot. unfold UserService.follow. rewrite acting, target.
  rewrite (findById_id _ _ _ target), (findById_id _ _ _ acting), Hnot.
  eexists. split; [reflexivity |]. simpl.
  unfold User.stored_follower_count, User.updateFollowerCount, User.follow.
  rewrite (findById_id _ _ _ target), (findById_id _ _ _ acting).
  rewrite count_after_set_following.
  rewrite !findById_update_by_id by reflexivity.
  rewrite target. simpl.
  assert (Ht := findById_id _ _ _ target).
  destruct (User.has_id user_id target_user);
    unfold User.has_id; simpl; rewrite Ht, Nat.eqb_refl; reflexivity.
Qed.

Lemma unfollow_stores_count_of_acting_user :
  User.isFollowing user params_id = true ->
  exists b,
    snd (UserService.unfollow c user_id params_id) = Send 200 b
    /\ User.stored_follower_count (fst (UserService.unfollow c user_id params_id))
                                  params_id
       = Some (User.countDocuments_followers_in c [user_id]).
Proof.
  intros Hyes. unfold UserService.unfollow. rewrite acting, target.
  rewrite (findById_id _ _ _ target), (findById_id _ _ _ acting), Hyes.
  eexists. split; [reflexivity |]. simpl.
  unfold User.stored_follower_count, User.updateFollowerCount, User.unfollow.
  rewrite (findById_id _ _ _ target), (findById_id _ _ _ acting).
  rewrite count_after_set_following.
  rewrite !findById_update_by_id by reflexivity.
  rewrite target. simpl.
  assert (Ht := findById_id _ _ _ target).
  destruct (User.has_id user_id target_user);
    unfold User.has_id; simpl; rewrite Ht, Nat.eqb_refl; reflexivity.
Qed.

End FollowCount.

(** C3 (the code departs from it). cy and dee follow bob; ada follows
    bob. The request succeeds, three users now follow bob, and bob's stored
    [follower_count] is 0: the count query asked for the documents whose
    [followers] hold ada. *)
Theorem follow_count_not_number_of_followers :
  let r := UserService.follow Sample.users 1 2 in
  (exists b, snd r = Send 200 b)
  /\ User.follower_number (fst r) 2 = 3
  /\ User.stored_follower_count (fst r) 2 = Some 0.
Proof.
  repeat split. eexists. reflexivity.
Qed.

(** C8 (the code departs from it). ada does not follow bob, whose stored
    [follower_count] is 2, the number of his followers. ada follows bob and
    then unfollows him; both requests succeed, and bob's stored count ends
    at 0, not at 2. *)
Theorem follow_unfollow_count_not_restored :
  let c := Sample.users in
  let r1 := UserService.follow c 1 2 in
  let r2 := UserService.unfollow (fst r1) 1 2 in
  option_map (fun d => User.isFollowing d 2) (User.findById c 1) = Some false
  /\ User.follower_number c 2 = 2
  /\ User.stored_follower_count c 2 = Some 2
  /\ (exists b, snd r1 = Send 200 b)
  /\ (exists b, snd r2 = Send 200 b)
  /\ User.follower_number (fst r2) 2 = 2
  /\ User.stored_follower_count (fst r2) 2 = Some 0.
Proof.
  repeat split; eexists; reflexivity.
Qed.

(** ** Review update and delete *)

Lemma remove_findById (c : Review.collection) (d : Review.doc) :
  Review.findById (Review.remove c d) (Review._id d) = None.
Proof.
  unfold Review.findById, Review.remove.
  induction c as [|x c IH]; simpl; [reflexivity |].
  destruct (Nat.eqb (Review._id x) (Review._id d)) eqn:E; simpl.
  - exact IH.
  - rewrite E. exact IH.
Qed.

Lemma update_non_author (D : ReviewService.Deps) (users : User.collection)
      (reviews : Review.collection) (now : Z) (payload_id : nat)
      (review : Review.doc) (p : ReviewService.patch) (author : User.doc) :
  ReviewService.populated_author users review = Some author ->
  Review.review_author review <> payload_id ->
  ReviewService.update users reviews now payload_id review (Some p)
  = (reviews, Send 403 ReviewService.Empty).
Proof.
  intros Ha Hne. unfold ReviewService.update. rewrite Ha.
  rewrite (findById_id _ _ _ Ha).
  apply Nat.eqb_neq in Hne. rewrite Hne. reflexivity.
Qed.

Lemma delete_non_author (users : User.collection) (reviews : Review.collection)
      (user_id : nat) (review : Review.doc) (user author : User.doc) :
  ReviewService.populated_author users review = Some author ->
  Review.review_author review <> user_id ->
  User.findById users user_id = Some user ->
  ReviewService.delete users reviews user_id review
  = if String.eqb (User.user_type user) "admin"
    then (Review.remove reviews review, Send 204 ReviewService.Empty)
    else (reviews,
          Send 403 (ReviewService.ErrorMessage
            "You must either be review creator or an admin to delete this review")).
Proof.
  intros Ha Hne Hu. unfold ReviewService.delete. rewrite Hu, Ha.
  rewrite (findById_id _ _ _ Ha).
  apply Nat.eqb_neq in Hne. rewrite Hne. simpl.
  destruct (String.eqb (User.user_type user) "admin"); reflexivity.
Qed.

(** A review whose author is no longer stored was preloaded with a null
    author: both handlers throw on reading its [_id], the error is
    forwarded and nothing is written. *)
Lemma review_write_null_author (D : ReviewService.Deps) (users : User.collection)
      (reviews : Review.collection) (now : Z) (payload_id : nat)
      (review : Review.doc) :
  ReviewService.populated_author users review = None ->
  (forall p,
      ReviewService.update users reviews now payload_id review (Some p)
      = (reviews, Forward TypeError))
  /\ (forall user,
         User.findById users payload_id = Some user ->
         ReviewService.delete users reviews payload_id review
         = (reviews, Forward TypeError)).
Proof.
  intros Hnull. split.
  - intros p. unfold ReviewService.update. rewrite Hnull. reflexivity.
  - intros user Hu. unfold ReviewService.delete. rewrite Hu, Hnull. reflexivity.
Qed.

(** C6, as amended. Take a review whose author is a stored user, and a
    requester who is not that author. An update request that carries a
    review object is answered 403 and the review collection is left as it
    is, whether or not the requester is an admin. A delete request by a
    requester who is stored and is not an admin is answered 403 and the
    collection is left as it is; a delete request by an admin removes the
    review and is answered 204. *)
Theorem review_write_guard
        (D : ReviewService.Deps) (users : User.collection)
        (reviews : Review.collection) (now : Z) (payload_id : nat)
        (review : Review.doc) (author : User.doc) :
  ReviewService.populated_author users review = Some author ->
  Review.review_author review <> payload_id ->
  (forall p,
      ReviewService.update users reviews now payload_id review (Some p)
      = (reviews, Send 403 ReviewService.Empty))
  /\ (forall user,
         User.findById users payload_id = Some user ->
         User.user_type user <> "admin" ->
         ReviewService.delete users reviews payload_id review
         = (reviews,
            Send 403 (ReviewService.ErrorMessage
              "You must either be review creator or an admin to delete this review")))
  /\ (forall user,
         User.findById users payload_id = Some user ->
         User.user_type user = "admin" ->
         ReviewService.delete users reviews payload_id review
         = (Review.remove reviews review, Send 204 ReviewService.Empty)
         /\ Review.findById (Review.remove reviews review) (Review._id review) = None).
Proof.
  intros Ha Hne. split; [| split].
  - intros p. apply (update_non_author _ _ _ _ _ _ _ _ Ha Hne).
  - intros user Hu Hplain.
    rewrite (delete_non_author _ _ _ _ _ _ Ha Hne Hu).
    apply String.eqb_neq in Hplain. rewrite Hplain. reflexivity.
  - intros user Hu Hadmin. split.
    + rewrite (delete_non_author _ _ _ _ _ _ Ha Hne Hu).
      apply String.eqb_eq in Hadmin. rewrite Hadmin. reflexivity.
    + apply remove_findById.
Qed.

Lemma review_write_guard_witness :
  ReviewService.populated_author Sample.users Sample.review1 = Some Sample.ada
  /\ Review.review_author Sample.review1 <> 5
  /\ ReviewService.delete Sample.users Sample.reviews 5 Sample.review1
     = ([Sample.review2], Send 204 ReviewService.Empty)
  /\ ReviewService.delete Sample.users Sample.reviews 2 Sample.review1
     = (Sample.reviews,
        Send 403 (ReviewService.ErrorMessage
          "You must either be review creator or an admin to delete this review")).
Proof.
  assert (Hada : ReviewService.populated_author Sample.users Sample.review1
                 = Some Sample.ada) by reflexivity.
  assert (Hroot : Review.review_author Sample.review1 <> 5) by discriminate.
  assert (Hbob : Review.review_author Sample.review1 <> 2) by discriminate.
  split; [exact Hada |]. split; [exact Hroot |]. split.
  - destruct (review_write_guard Sample.review_deps Sample.users Sample.reviews
                0 5 Sample.review1 Sample.ada Hada Hroot) as (_ & _ & Hadmin).
    destruct (Hadmin Sample.root eq_refl eq_refl) as [Hdel _]. exact Hdel.
  - destruct (review_write_guard Sample.review_deps Sample.users Sample.reviews
                0 2 Sample.review1 Sample.ada Hada Hbob) as (_ & Hplain & _).
    apply (Hplain Sample.bob eq_refl). discriminate.
Defined.

(** C6 as stated fails on update: root is an admin and not the author of
    the review, and the update request is answered 403 with nothing
    written. *)
Lemma update_by_admin_refused :
  option_map User.user_type (User.findById Sample.users 5) = Some "admin"
  /\ Review.review_author Sample.review1 <> 5
  /\ ReviewService.update (D := Sample.review_deps) Sample.users Sample.reviews
                          0 5 Sample.review1 (Some Sample.edit)
     = (Sample.reviews, Send 403 ReviewService.Empty).
Proof.
  repeat split. discriminate.
Qed.

(** ** Review list *)

Lemma filter_no_id (q : Review.query) (c : Review.collection) :
  Review.q_id_in q = Some [] ->
  filter (Review.matches q) c = [].
Proof.
  intros Hq. induction c as [|d c IH]; simpl; [reflexivity |].
  unfold Review.matches at 1. rewrite Hq. simpl.
  rewrite andb_false_r. exact IH.
Qed.

Lemma find_no_id (q : Review.query) (c : Review.collection) (l : option nat) (o : nat) :
  Review.q_id_in q = Some [] ->
  Review.find c q l o = [].
Proof.
  intros Hq. unfold Review.find. rewrite (filter_no_id _ _ Hq). simpl.
  rewrite skipn_nil. destruct l as [[|n]|]; reflexivity.
Qed.

Lemma count_no_id (q : Review.query) (c : Review.collection) :
  Review.q_id_in q = Some [] ->
  Review.count c q = 0.
Proof.
  intros Hq. unfold Review.count. rewrite (filter_no_id _ _ Hq). reflexivity.
Qed.

(** C7. A list request whose [favorited] parameter is a (non-empty)
    username that no user bears is answered with an empty [reviews] array
    and a [reviewsCount] of zero, whatever the other parameters are. *)
Theorem list_unknown_favoriter
        (users : User.collection) (reviews : Review.collection)
        (q : ReviewService.list_query) (payload : option nat) (name : string) :
  ReviewService.favorited q = Some name ->
  name <> "" ->
  User.findOne_username users name = None ->
  ReviewService.list users reviews q payload
  = Send 200 (ReviewService.ReviewsJson
                []
                (match payload with
                 | Some id => User.findById users id
                 | None => None
                 end)
                0).
Proof.
  intros Hfav Hname Hnone.
  assert (Hq : Review.q_id_in (ReviewService.build_query users q) = Some []).
  { unfold ReviewService.build_query, ReviewService.lookup_username.
    rewrite Hfav. unfold Js.present. simpl.
    apply String.eqb_neq in Hname. rewrite Hname. simpl.
    rewrite Hnone. reflexivity. }
  unfold ReviewService.list.
  rewrite (find_no_id _ _ _ _ Hq), (count_no_id _ _ Hq). reflexivity.
Qed.

Lemma list_unknown_favoriter_witness :
  User.findOne_username Sample.users "nobody" = None
  /\ ReviewService.list Sample.users Sample.reviews
       (ReviewService.mkListQuery (Some 5) None (Some "novel") (Some "ada")
                                  (Some "nobody"))
       (Some 1)
     = Send 200 (ReviewService.ReviewsJson [] (Some Sample.ada) 0).
Proof.
  split; [reflexivity |].
  apply (list_unknown_favoriter Sample.users Sample.reviews _ (Some 1) "nobody");
    [reflexivity | discriminate | reflexivity].
Defined.

(** An empty [favorited] parameter ([?favorited=]) is falsy: no favoriter
    is looked up and no filter on [_id] is set. *)
Example list_empty_favorited :
  ReviewService.list Sample.users Sample.reviews
    (ReviewService.mkListQuery None None None None (Some "")) None
  = Send 200 (ReviewService.ReviewsJson [Sample.review2; Sample.review1] None 2).
Proof. reflexivity. Qed.

(** ** Genre delete *)

Lemma find_genre_nil (books : Book.collection) (id : nat) :
  Book.find_genre books id = [] <->
  forall b, In b books -> ~ In id (Book.genre b).
Proof.
  unfold Book.find_genre. induction books as [|b books IH]; simpl.
  - split; [intros _ x [] | reflexivity].
  - destruct (existsb (Nat.eqb id) (Book.genre b)) eqn:E.
    + split; [discriminate |]. intros Hall. exfalso.
      apply existsb_exists in E. destruct E as (g & Hin & Hg).
      apply Nat.eqb_eq in Hg. subst g. exact (Hall b (or_introl eq_refl) Hin).
    + rewrite IH. split.
      * intros Hall x [Hbx | Hx]; [subst x | exact (Hall x Hx)].
        intros Hin. assert (existsb (Nat.eqb id) (Book.genre b) = true) as Ht.
        { apply existsb_exists. exists id. split; [exact Hin | apply Nat.eqb_refl]. }
        congruence.
      * intros Hall x Hx. apply Hall. right. exact Hx.
Qed.

Lemma findByIdAndRemove_findById (c : Genre.collection) (id : nat) :
  Genre.findById (Genre.findByIdAndRemove c id) id = None.
Proof.
  unfold Genre.findById, Genre.findByIdAndRemove.
  induction c as [|d c IH]; simpl; [reflexivity |].
  destruct (Genre.has_id id d) eqn:E; simpl; [| rewrite E]; exact IH.
Qed.

Lemma genre_delete_post_refused (genres : Genre.collection) (books : Book.collection)
      (genreid : nat) :
  Book.find_genre books genreid <> [] ->
  GenreController.genre_delete_post genres books genreid
  = (genres,
     Send 200 (GenreController.GenreDelete "Delete Genre"
                 (Genre.findById genres genreid) (Book.find_genre books genreid))).
Proof.
  intros Hsome. unfold GenreController.genre_delete_post.
  destruct (Book.find_genre books genreid); [contradiction | reflexivity].
Qed.

Lemma genre_delete_post_removes (genres : Genre.collection) (books : Book.collection)
      (genreid : nat) :
  Book.find_genre books genreid = [] ->
  GenreController.genre_delete_post genres books genreid
  = (Genre.findByIdAndRemove genres genreid, RedirectTo "/catalog/genres").
Proof.
  intros Hnone. unfold GenreController.genre_delete_post.
  rewrite Hnone. reflexivity.
Qed.

(** C5. For a delete request on a stored genre: if some book references
    the genre, the delete form is rendered again, the genre collection is
    left as it is and the genre is still there; and the genre is gone after
    the request exactly when no book references it. *)
Theorem genre_delete_post_guard
        (genres : Genre.collection) (books : Book.collection)
        (genreid : nat) (genre : Genre.doc) :
  Genre.findById genres genreid = Some genre ->
  let r := GenreController.genre_delete_post genres books genreid in
  ((exists b, In b books /\ In genreid (Book.genre b)) ->
   r = (genres,
        Send 200 (GenreController.GenreDelete "Delete Genre" (Some genre)
                    (Book.find_genre books genreid)))
   /\ Genre.findById (fst r) genreid = Some genre)
  /\ (Genre.findById (fst r) genreid = None <->
      forall b, In b books -> ~ In genreid (Book.genre b)).
Proof.
  intros Hg r. subst r.
  destruct (Book.find_genre books genreid) as [|b0 l] eqn:E.
  - assert (Hfree := proj1 (find_genre_nil books genreid) E).
    rewrite (genre_delete_post_removes _ _ _ E). simpl. split.
    + intros (b & Hb & Hin). exfalso. exact (Hfree b Hb Hin).
    + split; [intros _; exact Hfree | intros _; apply findByIdAndRemove_findById].
  - assert (Hsome : Book.find_genre books genreid <> []) by (rewrite E; discriminate).
    rewrite (genre_delete_post_refused _ _ _ Hsome). simpl. rewrite Hg, E. split.
    + intros _. split; reflexivity.
    + split; [discriminate |]. intros Hfree. exfalso.
      apply Hsome, find_genre_nil, Hfree.
Qed.

Lemma genre_delete_post_guard_witness :
  Genre.findById Sample.genres 1 = Some Sample.fantasy
  /\ In Sample.hobbit Sample.books
  /\ In 1 (Book.genre Sample.hobbit)
  /\ GenreController.genre_delete_post Sample.genres Sample.books 1
     = (Sample.genres,
        Send 200 (GenreController.GenreDelete "Delete Genre" (Some Sample.fantasy)
                    [Sample.hobbit])).
Proof.
  assert (Hb : In Sample.hobbit Sample.books) by (left; reflexivity).
  assert (Hin : In 1 (Book.genre Sample.hobbit)) by (left; reflexivity).
  split; [reflexivity |]. split; [exact Hb |]. split; [exact Hin |].
  destruct (genre_delete_post_guard Sample.genres Sample.books 1 Sample.fantasy eq_refl)
    as [Hrefused _].
  destruct (Hrefused (ex_intro _ Sample.hobbit (conj Hb Hin))) as [Hr _].
  exact Hr.
Defined.

(** ** Genre create *)

Lemma findOne_name_some (c : Genre.collection) (n : string) :
  (exists g, In g c /\ Genre.name g = n) ->
  exists found, Genre.findOne_name c n = Some found
                /\ In found c /\ Genre.name found = n.
Proof.
  intros (g & Hin & Hn). unfold Genre.findOne_name.
  destruct (find (fun d => String.eqb (Genre.name d) n) c) as [found|] eqn:E.
  - exists found. apply find_some in E. destruct E as [Hf He].
    apply String.eqb_eq in He. auto.
  - exfalso. apply (find_none _ _ E) in Hin. simpl in Hin.
    apply String.eqb_neq in Hin. contradiction.
Qed.

Lemma findOne_name_none (c : Genre.collection) (n : string) :
  Genre.findOne_name c n = None ->
  forall g, In g c -> Genre.name g <> n.
Proof.
  unfold Genre.findOne_name. intros E g Hin.
  apply (find_none _ _ E) in Hin. simpl in Hin.
  apply String.eqb_neq, Hin.
Qed.

Lemma app_one_neq {A : Type} (l : list A) (a : A) : (l ++ [a])%list <> l.
Proof.
  intros H. apply (f_equal (@List.length A)) in H.
  rewrite length_app in H. simpl in H. lia.
Qed.

(** C10, as amended. For a create request whose name passes the
    non-empty check, take the name as the handler looks it up, escaped and
    trimmed: if a genre with exactly that name is stored, nothing is saved
    and the response redirects to the URL of a stored genre of that name;
    and if the collection changed, no genre had that name and the change
    is the one new document. *)
Theorem genre_create_post_existing_name
        (D : GenreController.Deps) (genres : Genre.collection) (name : string) :
  GenreController.notEmpty name = true ->
  let r := GenreController.genre_create_post genres name in
  let looked_up := GenreController.sanitized name in
  ((exists g, In g genres /\ Genre.name g = looked_up) ->
   fst r = genres
   /\ exists found, In found genres /\ Genre.name found = looked_up
                    /\ snd r = RedirectTo (GenreController.url found))
  /\ (fst r <> genres ->
      (forall g, In g genres -> Genre.name g <> looked_up)
      /\ fst r = (genres ++ [Genre.mk (Genre.fresh_id genres) looked_up])%list).
Proof.
  intros Hvalid r looked_up. subst r looked_up.
  unfold GenreController.genre_create_post. rewrite Hvalid. simpl.
  split.
  - intros Hex. apply findOne_name_some in Hex.
    destruct Hex as (found & Hfound & Hin & Hn). rewrite Hfound. simpl.
    split; [reflexivity |]. exists found. auto.
  - destruct (Genre.findOne_name genres (GenreController.sanitized name)) eqn:E; simpl.
    + intros Hchanged. exfalso. apply Hchanged. reflexivity.
    + destruct (GenreController.save_ok _); simpl; intros Hchanged.
      * split; [apply findOne_name_none, E | reflexivity].
      * exfalso. apply Hchanged. reflexivity.
Qed.

Lemma genre_create_post_existing_name_witness :
  GenreController.notEmpty (Deps := Sample.genre_deps) "Poetry" = true
  /\ fst (GenreController.genre_create_post (D := Sample.genre_deps)
            Sample.genres "Poetry") = Sample.genres
  /\ exists found,
       In found Sample.genres
       /\ Genre.name found = "Poetry"
       /\ snd (GenreController.genre_create_post (D := Sample.genre_deps)
                 Sample.genres "Poetry")
          = RedirectTo (GenreController.url (Deps := Sample.genre_deps) found).
Proof.
  split; [reflexivity |].
  apply (genre_create_post_existing_name Sample.genre_deps Sample.genres
           "Poetry" eq_refl).
  exists Sample.poetry. split; [right; left; reflexivity | reflexivity].
Defined.

(** C10 as stated fails where escaping changes the submitted name: a genre
    named exactly as the request is stored, the name passes the check, and
    the request saves a second genre under the escaped name. *)
Lemma genre_create_post_exact_name_saved :
  GenreController.notEmpty (Deps := Sample.escaping_deps) "R&amp;B" = true
  /\ In Sample.rhythm [Sample.rhythm]
  /\ Genre.name Sample.rhythm = "R&amp;B"
  /\ GenreController.genre_create_post (D := Sample.escaping_deps)
       [Sample.rhythm] "R&amp;B"
     = ([Sample.rhythm; Genre.mk 2 "R&amp;amp;B"],
        RedirectTo "/catalog/genre/R&amp;amp;B").
Proof.
  split; [reflexivity |]. split; [left; reflexivity |]. split; reflexivity.
Qed.

(** The stored genre of that example is what a create request named "R&B"
    leaves behind. *)
Example genre_create_post_escapes :
  GenreController.genre_create_post (D := Sample.escaping_deps) [] "R&B"
  = ([Sample.rhythm], RedirectTo "/catalog/genre/R&amp;B").
Proof. reflexivity. Qed.

(** A name that no stored genre has is saved as a new document. *)
Example genre_create_post_new :
  GenreController.genre_create_post (D := Sample.genre_deps) Sample.genres "Travel"
  = ((Sample.genres ++ [Genre.mk 3 "Travel"])%list, RedirectTo "/catalog/genre/Travel").
Proof. reflexivity. Qed.

(** * Further properties of the handlers *)

(** ** Lookups in a collection that grows at its end *)

Lemma find_app_l {A : Type} (f : A -> bool) (l l' : list A) (a : A) :
  find f l = Some a -> find f (l ++ l')%list = Some a.
Proof.
  induction l as [|x l IH]; simpl; [discriminate |].
  destruct (f x); [trivial | exact IH].
Qed.

Lemma find_app_r {A : Type} (f : A -> bool) (l l' : list A) :
  find f l = None -> find f (l ++ l')%list = find f l'.
Proof.
  induction l as [|x l IH]; simpl; [reflexivity |].
  destruct (f x); [discriminate | exact IH].
Qed.

Lemma list_max_bound (l : list nat) (n : nat) : In n l -> n <= list_max l.
Proof.
  intros Hin. assert (H : list_max l <= list_max l) by lia.
  apply list_max_le in H. rewrite Forall_forall in H. exact (H n Hin).
Qed.

Lemma user_fresh_id_unused (c : User.collection) :
  User.findById c (User.fresh_id c) = None.
Proof.
  unfold User.findById.
  destruct (find (User.has_id (User.fresh_id c)) c) as [d|] eqn:E; [| reflexivity].
  apply find_some in E. destruct E as [Hin Hid].
  apply Nat.eqb_eq in Hid.
  assert (Hle : User._id d <= list_max (map User._id c))
    by (apply list_max_bound, in_map, Hin).
  unfold User.fresh_id in Hid. lia.
Qed.

Lemma new_user_id (D : UserService.Deps) (c : User.collection)
      (u : UserService.signup_body) :
  User._id (UserService.new_user c u) = User.fresh_id c.
Proof.
  unfold UserService.new_user.
  destruct (Js.truthy (UserService.give_admin_priviledges u)),
           (Js.truthy (UserService.give_mod_priviledges u)); reflexivity.
Qed.

(** ** Signup: errors and lookups *)

(** X1. A signup that saves a user can look the user up by its id
    afterwards, and every user that could be looked up before still can,
    with the same document. *)
Theorem signup_keeps_and_finds
        (D : UserService.Deps) (c c' : User.collection)
        (b : option UserService.signup_body) (user : User.doc) :
  UserService.signup c b = (c', Send 200 (UserService.AuthJson user)) ->
  User.findById c' (User._id user) = Some user
  /\ forall id d, User.findById c id = Some d -> User.findById c' id = Some d.
Proof.
  unfold UserService.signup. intros H.
  destruct b as [u|]; [| discriminate].
  destruct (negb _ || _ || _ || _ || _); [discriminate |].
  destruct (UserService.save_ok c (UserService.new_user c u)); [| discriminate].
  injection H as <- <-. split.
  - unfold User.findById. rewrite find_app_r.
    + simpl. unfold User.has_id. rewrite Nat.eqb_refl. reflexivity.
    + rewrite new_user_id. apply user_fresh_id_unused.
  - intros id d Hd. apply find_app_l, Hd.
Qed.

Lemma signup_keeps_and_finds_witness :
  let b := Sample.signup_with Js.Undefined Js.Undefined in
  let user := UserService.new_user (D := Sample.user_deps) Sample.users b in
  UserService.signup (D := Sample.user_deps) Sample.users (Some b)
  = ((Sample.users ++ [user])%list, Send 200 (UserService.AuthJson user))
  /\ User.findById (Sample.users ++ [user])%list (User._id user) = Some user
  /\ User.findById (Sample.users ++ [user])%list 2 = Some Sample.bob.
Proof.
  intros b user.
  assert (H : UserService.signup (D := Sample.user_deps) Sample.users (Some b)
              = ((Sample.users ++ [user])%list, Send 200 (UserService.AuthJson user)))
    by reflexivity.
  split; [exact H |].
  destruct (signup_keeps_and_finds Sample.user_deps _ _ _ _ H) as [Hnew Hold].
  split; [exact Hnew | apply Hold; reflexivity].
Defined.

(** X2. A signup whose body lacks one of the five required fields, or
    holds it as the empty string, is answered 400 and saves nothing,
    whatever the flags say. *)
Theorem signup_requires_all_fields
        (D : UserService.Deps) (c : User.collection) (u : UserService.signup_body) :
  Js.present (UserService.username u) = false
  \/ Js.present (UserService.password u) = false
  \/ Js.present (UserService.email u) = false
  \/ Js.present (UserService.first_name u) = false
  \/ Js.present (UserService.family_name u) = false ->
  UserService.signup c (Some u)
  = (c, Send 400 (UserService.ErrorMessage "Required form values need to be complete!")).
Proof.
  intros H. apply signup_incomplete. unfold UserService.required_complete.
  destruct H as [H | [H | [H | [H | H]]]]; rewrite H;
    rewrite ?andb_false_r; reflexivity.
Qed.

Lemma signup_requires_all_fields_witness :
  Js.present (Some "") = false
  /\ UserService.signup (D := Sample.user_deps) Sample.users
       (Some (UserService.mkSignup (Some "eve") (Some "") (Some "eve@example.org")
                                   (Some "Eve") (Some "Doe") (Js.Bool true) (Js.Bool true)))
     = (Sample.users,
        Send 400 (UserService.ErrorMessage "Required form values need to be complete!")).
Proof.
  split; [reflexivity |].
  apply signup_requires_all_fields. right. left. reflexivity.
Defined.

(** ** Profile update: the requester's own document *)

Lemma or_keep_twice {A : Type} (o : option A) (a : A) :
  User.or_keep o (User.or_keep o a) = User.or_keep o a.
Proof. destruct o; reflexivity. Qed.

Lemma apply_patch_twice (p : User.patch) (d : User.doc) :
  User.apply_patch p (User.apply_patch p d) = User.apply_patch p d.
Proof.
  unfold User.apply_patch. simpl. rewrite !or_keep_twice. reflexivity.
Qed.

Lemma update_by_id_twice (f : User.doc -> User.doc) (id : nat) (c : User.collection) :
  (forall d, User._id (f d) = User._id d) ->
  (forall d, f (f d) = f d) ->
  User.update_by_id f id (User.update_by_id f id c) = User.update_by_id f id c.
Proof.
  intros Hid Hff. unfold User.update_by_id. rewrite map_map.
  apply map_ext. intros d. destruct (User.has_id id d) eqn:E.
  - unfold User.has_id in *. rewrite Hid, E. apply Hff.
  - rewrite E. reflexivity.
Qed.

Lemma update_store (c : User.collection) (params_id payload_id : nat)
      (body_user : option User.patch) :
  fst (UserService.update c params_id payload_id body_user)
  = match body_user, User.findById c params_id with
    | Some p, Some _ => User.update_by_id (User.apply_patch p) payload_id c
    | _, _ => c
    end.
Proof.
  unfold UserService.update. destruct body_user as [p|]; [| reflexivity].
  destruct (User.findById c params_id); [| reflexivity]. simpl.
  destruct (User.findById _ payload_id); reflexivity.
Qed.

(** X3. A user who updates their own profile is answered 200 with the
    document as it is after the write, and the stored document is the old
    one with every submitted field replaced, [user_type] included. *)
Theorem update_own_profile
        (c : User.collection) (id : nat) (p : User.patch) (d : User.doc) :
  User.findById c id = Some d ->
  UserService.update c id id (Some p)
  = (User.update_by_id (User.apply_patch p) id c,
     mkRes (Some (200, UserService.AuthJson (User.apply_patch p d))) None)
  /\ User.findById (fst (UserService.update c id id (Some p))) id
     = Some (User.apply_patch p d).
Proof.
  intros Hd.
  assert (Hafter : User.findById (User.update_by_id (User.apply_patch p) id c) id
                   = Some (User.apply_patch p d)).
  { rewrite findById_update_same by apply apply_patch_id. rewrite Hd. reflexivity. }
  assert (Hrun : UserService.update c id id (Some p)
                 = (User.update_by_id (User.apply_patch p) id c,
                    mkRes (Some (200, UserService.AuthJson (User.apply_patch p d))) None)).
  { unfold UserService.update. rewrite Hd, (findById_id _ _ _ Hd), Nat.eqb_refl.
    simpl. rewrite Hafter. reflexivity. }
  split; [exact Hrun | rewrite Hrun; exact Hafter].
Qed.

Lemma update_own_profile_witness :
  User.findById Sample.users 1 = Some Sample.ada
  /\ option_map User.first_name
       (User.findById
          (fst (UserService.update Sample.users 1 1 (Some (Sample.rename "Ada")))) 1)
     = Some "Ada".
Proof.
  split; [reflexivity |].
  destruct (update_own_profile Sample.users 1 (Sample.rename "Ada") Sample.ada eq_refl)
    as [_ Hstored].
  rewrite Hstored. reflexivity.
Defined.

(** X4. Whatever the request, a profile update leaves the stored document
    of every user other than the authenticated one as it was. *)
Theorem update_touches_only_requester
        (c : User.collection) (params_id payload_id : nat)
        (body_user : option User.patch) (id : nat) :
  id <> payload_id ->
  User.findById (fst (UserService.update c params_id payload_id body_user)) id
  = User.findById c id.
Proof.
  intros Hne. rewrite update_store.
  destruct body_user as [p|]; [| reflexivity].
  destruct (User.findById c params_id); [| reflexivity].
  apply findById_update_other; [apply apply_patch_id | congruence].
Qed.

Lemma update_touches_only_requester_witness :
  3 <> 1
  /\ User.findById
       (fst (UserService.update Sample.users 3 1 (Some (Sample.rename "Mallory")))) 3
     = Some Sample.cy.
Proof.
  assert (Hne : 3 <> 1) by discriminate.
  split; [exact Hne |].
  rewrite (update_touches_only_requester Sample.users 3 1 _ 3 Hne). reflexivity.
Defined.

(** X5. For a body of plain field values (no update operators), sending
    the same profile update twice leaves the modelled fields of every
    stored user as the first request left them. *)
Theorem update_twice
        (c : User.collection) (params_id payload_id : nat)
        (body_user : option User.patch) :
  let c1 := fst (UserService.update c params_id payload_id body_user) in
  fst (UserService.update c1 params_id payload_id body_user) = c1.
Proof.
  intros c1. subst c1. rewrite !update_store.
  destruct body_user as [p|]; [| reflexivity].
  destruct (User.findById c params_id) as [d|] eqn:E; rewrite ?E; [| reflexivity].
  rewrite findById_update_by_id by apply apply_patch_id. rewrite E. simpl.
  apply update_by_id_twice; [apply apply_patch_id | apply apply_patch_twice].
Qed.

(** ** Suspension *)

(** X6. A suspend request by a requester who is not stored, or whose
    [user_type] is neither 'admin' nor 'moderator', is answered 401 and
    writes nothing: [suspend_user] is never reached. *)
Theorem suspend_requires_privilege
        (U : UserService.SuspendDeps) (c : User.collection) (now : Z)
        (payload_id params_id : nat) :
  (forall super_user,
      User.findById c payload_id = Some super_user ->
      User.user_type super_user <> "admin"
      /\ User.user_type super_user <> "moderator") ->
  exists b, UserService.suspend c now payload_id params_id = (c, Send 401 b).
Proof.
  intros Hplain. unfold UserService.suspend.
  destruct (User.findById c payload_id) as [su|]; [| eexists; reflexivity].
  destruct (Hplain su eq_refl) as [Ha Hm].
  apply String.eqb_neq in Ha, Hm. rewrite Ha, Hm. simpl.
  eexists. reflexivity.
Qed.

Lemma suspend_requires_privilege_witness :
  exists b,
    UserService.suspend (U := Sample.suspend_deps) Sample.users 1000 1 2
    = (Sample.users, Send 401 b).
Proof.
  apply suspend_requires_privilege.
  intros su Hsu. injection Hsu as <-. split; discriminate.
Defined.

(** An admin's request does reach [suspend_user]. *)
Example suspend_by_admin :
  option_map User.suspended
    (User.findById
       (fst (UserService.suspend (U := Sample.suspend_deps) Sample.users 1000 5 2)) 2)
  = Some true.
Proof. reflexivity. Qed.

(** ** Login: when the collection is written *)

(** X7. A login changes the collection only when the credential strategy
    hands back a user who is marked suspended; that login is answered 200.
    Requests without body, email or password, and rejected or failing
    authentications, write nothing. *)
Theorem login_writes_only_for_suspended
        (D : UserService.Deps) (c : User.collection) (now : Z)
        (body_user : option UserService.credentials) :
  fst (UserService.login c now body_user) <> c ->
  exists u user,
    body_user = Some u
    /\ UserService.local_strategy c (Js.text (UserService.cred_email u))
                                  (Js.text (UserService.cred_password u))
       = UserService.AuthUser user
    /\ User.suspended user = true
    /\ snd (UserService.login c now body_user) = Send 200 (UserService.AuthJson user).
Proof.
  unfold UserService.login. intros Hchanged.
  destruct body_user as [u|]; [| contradiction Hchanged; reflexivity].
  destruct (Js.present (UserService.cred_email u));
    [| contradiction Hchanged; reflexivity].
  destruct (Js.present (UserService.cred_password u));
    [| contradiction Hchanged; reflexivity].
  simpl in *.
  destruct (UserService.local_strategy c _ _) as [e | info | user] eqn:E;
    try (contradiction Hchanged; reflexivity).
  exists u, user. unfold UserService.login_callback in *.
  destruct (User.suspended user); simpl in *.
  - repeat split; solve [reflexivity | exact E].
  - contradiction Hchanged; reflexivity.
Qed.

Lemma login_writes_only_for_suspended_witness :
  fst (UserService.login (D := Sample.user_deps) Sample.detained 1000
                         (Some Sample.zed_login)) <> Sample.detained
  /\ snd (UserService.login (D := Sample.user_deps) Sample.detained 1000
                            (Some Sample.zed_login))
     = Send 200 (UserService.AuthJson Sample.zed).
Proof.
  assert (Hchanged : fst (UserService.login (D := Sample.user_deps) Sample.detained 1000
                            (Some Sample.zed_login)) <> Sample.detained)
    by discriminate.
  split; [exact Hchanged |].
  destruct (login_writes_only_for_suspended Sample.user_deps _ _ _ Hchanged)
    as (u & user & Hu & Hauth & _ & Hreply).
  injection Hu as <-. rewrite Hreply.
  cbv in Hauth. injection Hauth as <-. reflexivity.
Defined.

(** ** Follow and unfollow: the guards *)

(** X8. For an acting user and a target that both exist, exactly one of
    follow and unfollow is refused by its guard, with nothing written, and
    the other one is answered 200. *)
Theorem follow_unfollow_exclusive
        (c : User.collection) (user_id params_id : nat) (user target_user : User.doc) :
  User.findById c user_id = Some user ->
  User.findById c params_id = Some target_user ->
  (UserService.follow c user_id params_id
   = (c, Forward (AppError "You are already following this user"))
   /\ exists b, snd (UserService.unfollow c user_id params_id) = Send 200 b)
  \/ (UserService.unfollow c user_id params_id
      = (c, Forward (AppError "You don't follow this user"))
      /\ exists b, snd (UserService.follow c user_id params_id) = Send 200 b).
Proof.
  intros Hu Ht. unfold UserService.follow, UserService.unfollow.
  rewrite Hu, Ht.
  destruct (User.isFollowing user (User._id target_user)); simpl;
    [left | right]; (split; [reflexivity | eexists; reflexivity]).
Qed.

Lemma follow_unfollow_exclusive_witness :
  UserService.unfollow Sample.users 1 2
  = (Sample.users, Forward (AppError "You don't follow this user"))
  /\ UserService.follow Sample.users 3 2
     = (Sample.users, Forward (AppError "You are already following this user")).
Proof.
  split.
  - destruct (follow_unfollow_exclusive Sample.users 1 2 Sample.ada Sample.bob
                eq_refl eq_refl) as [[Hf _] | [Hu _]]; [discriminate Hf | exact Hu].
  - destruct (follow_unfollow_exclusive Sample.users 3 2 Sample.cy Sample.bob
                eq_refl eq_refl) as [[Hf _] | [Hu _]]; [exact Hf | discriminate Hu].
Defined.

(** X9. A follow or an unfollow that is not answered 200 writes nothing:
    an unknown acting user (401), a missing target (a forwarded TypeError,
    not a 404) and a refused guard all leave the collection as it was. *)
Theorem follow_failure_writes_nothing
        (c : User.collection) (user_id params_id : nat) :
  ((forall b, snd (UserService.follow c user_id params_id) <> Send 200 b) ->
   fst (UserService.follow c user_id params_id) = c)
  /\ ((forall b, snd (UserService.unfollow c user_id params_id) <> Send 200 b) ->
      fst (UserService.unfollow c user_id params_id) = c)
  /\ (User.findById c user_id = None ->
      UserService.follow c user_id params_id = (c, Send 401 UserService.Empty)
      /\ UserService.unfollow c user_id params_id = (c, Send 401 UserService.Empty))
  /\ (User.findById c user_id <> None -> User.findById c params_id = None ->
      UserService.follow c user_id params_id = (c, Forward TypeError)
      /\ UserService.unfollow c user_id params_id = (c, Forward TypeError)).
Proof.
  unfold UserService.follow, UserService.unfollow.
  destruct (User.findById c user_id) as [user|];
    destruct (User.findById c params_id) as [target_user|]; simpl;
    repeat split; try reflexivity; try discriminate; try congruence;
    try (intros; contradiction).
  - destruct (User.isFollowing user (User._id target_user)); simpl;
      [reflexivity | intros H; exfalso; eapply H; reflexivity].
  - destruct (User.isFollowing user (User._id target_user)); simpl;
      [intros H; exfalso; eapply H; reflexivity | reflexivity].
Qed.

Lemma follow_failure_writes_nothing_witness :
  User.findById Sample.users 1 <> None
  /\ User.findById Sample.users 9 = None
  /\ UserService.follow Sample.users 1 9 = (Sample.users, Forward TypeError).
Proof.
  assert (Hu : User.findById Sample.users 1 <> None) by discriminate.
  split; [exact Hu |]. split; [reflexivity |].
  destruct (follow_failure_writes_nothing Sample.users 1 9) as (_ & _ & _ & Hmissing).
  destruct (Hmissing Hu eq_refl) as [Hf _]. exact Hf.
Defined.

(** ** Review creation *)

Lemma review_fresh_id_unused (c : Review.collection) :
  Review.findById c (Review.fresh_id c) = None.
Proof.
  unfold Review.findById.
  destruct (find (fun d => Nat.eqb (Review._id d) (Review.fresh_id c)) c)
    as [d|] eqn:E; [| reflexivity].
  apply find_some in E. destruct E as [Hin Hid].
  apply Nat.eqb_eq in Hid.
  assert (Hle : Review._id d <= list_max (map Review._id c))
    by (apply list_max_bound, in_map, Hin).
  unfold Review.fresh_id in Hid. lia.
Qed.

Lemma book_findById_id (c : Book.collection) (id : option nat) (b : Book.doc) :
  Book.findById c id = Some b -> id = Some (Book._id b).
Proof.
  destruct id as [id|]; simpl; [| discriminate].
  intros H. apply find_some in H. destruct H as [_ H].
  apply Nat.eqb_eq in H. congruence.
Qed.

Lemma push_review_findById (c : Book.collection) (b : Book.doc) (rid id : nat) :
  Book.findById (Book.push_review c b rid) (Some id)
  = option_map (fun x => if Nat.eqb (Book._id x) (Book._id b)
                         then Book.set_reviews (Book.reviews b ++ [rid])%list x
                         else x)
               (Book.findById c (Some id)).
Proof.
  unfold Book.push_review. simpl.
  induction c as [|x c IH]; simpl; [reflexivity |].
  replace (Book._id (if Nat.eqb (Book._id x) (Book._id b)
                     then Book.set_reviews (Book.reviews b ++ [rid])%list x
                     else x))
    with (Book._id x) by (destruct (Nat.eqb (Book._id x) (Book._id b)); reflexivity).
  destruct (Nat.eqb (Book._id x) id); [reflexivity | exact IH].
Qed.

Section Creation.

Context {D : ReviewCreation.Deps}.
Variable users : User.collection.
Variable reviews : Review.collection.
Variable books : Book.collection.
Variable now : Z.
Variable payload_id : nat.

(** What [create] returns once the request carries a review object, the
    requester is stored and is not suspended, and the book is stored. *)
Lemma create_reaches_save (b : ReviewCreation.create_body)
      (user : User.doc) (book : Book.doc) :
  User.findById users payload_id = Some user ->
  User.suspended user = false ->
  Js.gt_now (User.suspension_timeline user) now = false ->
  Book.findById books (ReviewCreation.book_id b) = Some book ->
  ReviewCreation.create users reviews books now payload_id (Some b)
  = let review := ReviewCreation.new_review reviews now b user book in
    if ReviewCreation.save_ok review
    then ((reviews ++ [review])%list,
          Book.push_review books book (Review._id review),
          Send 201 (ReviewService.ReviewJson review (Some user)))
    else (reviews, books, Forward ValidationError).
Proof.
  intros Hu Hs Ht Hb. unfold ReviewCreation.create.
  rewrite Hu, Hs, Ht, Hb. reflexivity.
Qed.

(** Any answer 201 comes from that path. *)
Lemma create_201_inv (body_review : option ReviewCreation.create_body)
      (reviews' : Review.collection) (books' : Book.collection)
      (review : Review.doc) (viewer : option User.doc) :
  ReviewCreation.create users reviews books now payload_id body_review
  = (reviews', books', Send 201 (ReviewService.ReviewJson review viewer)) ->
  exists b user book,
    body_review = Some b
    /\ User.findById users payload_id = Some user
    /\ Book.findById books (ReviewCreation.book_id b) = Some book
    /\ review = ReviewCreation.new_review reviews now b user book
    /\ reviews' = (reviews ++ [review])%list
    /\ books' = Book.push_review books book (Review._id review).
Proof.
  unfold ReviewCreation.create. intros H.
  destruct body_review as [b|]; [| discriminate].
  destruct (User.findById users payload_id) as [user|]; [| discriminate].
  destruct (User.suspended user || Js.gt_now (User.suspension_timeline user) now);
    [discriminate |].
  destruct (Book.findById books (ReviewCreation.book_id b)) as [book|] eqn:Eb;
    [| discriminate].
  destruct (ReviewCreation.save_ok _); [| discriminate].
  injection H as <- <- <- _. exists b, user, book. repeat split; assumption.
Qed.

End Creation.

(** X10. A created review (answer 201) is stored under a new id, can be
    loaded by that id, names the requester as its author, leaves every
    review stored before as it was, and its id is on the [reviews] list of
    the stored book it points to. *)
Theorem create_stores_and_links
        (D : ReviewCreation.Deps) (users : User.collection)
        (reviews reviews' : Review.collection) (books books' : Book.collection)
        (now : Z) (payload_id : nat)
        (body_review : option ReviewCreation.create_body)
        (review : Review.doc) (viewer : option User.doc) :
  ReviewCreation.create users reviews books now payload_id body_review
  = (reviews', books', Send 201 (ReviewService.ReviewJson review viewer)) ->
  ReviewService.preloadReview reviews' (Review._id review) = inr review
  /\ Review.findById reviews (Review._id review) = None
  /\ Review.review_author review = payload_id
  /\ (forall id r, Review.findById reviews id = Some r ->
                   Review.findById reviews' id = Some r)
  /\ exists book',
       Book.findById books' (Some (Review.book review)) = Some book'
       /\ In (Review._id review) (Book.reviews book').
Proof.
  intros H. apply create_201_inv in H.
  destruct H as (b & user & book & -> & Hu & Hb & -> & -> & ->).
  assert (Hfresh := review_fresh_id_unused reviews).
  cbn [ReviewCreation.new_review Review._id Review.book Review.review_author].
  split; [| split; [| split; [| split]]].
  - unfold ReviewService.preloadReview, Review.findById in *.
    rewrite (find_app_r _ _ _ Hfresh). simpl. rewrite Nat.eqb_refl. reflexivity.
  - exact Hfresh.
  - exact (findById_id _ _ _ Hu).
  - intros id r Hr. unfold Review.findById in *. apply find_app_l, Hr.
  - rewrite push_review_findById.
    apply book_findById_id in Hb as Hid. rewrite Hid in Hb. rewrite Hb. simpl.
    rewrite Nat.eqb_refl. eexists. split; [reflexivity |].
    simpl. apply in_or_app. right. left. reflexivity.
Qed.

Lemma create_stores_and_links_witness :
  let r := ReviewCreation.create (D := Sample.creation_deps) Sample.users
             Sample.reviews Sample.books 5000 3 (Some Sample.praise) in
  (exists review, snd r = Send 201 (ReviewService.ReviewJson review (Some Sample.cy))
                  /\ ReviewService.preloadReview (fst (fst r)) (Review._id review)
                     = inr review
                  /\ Review.review_author review = 3).
Proof.
  intros r.
  destruct r as [[reviews' books'] reply] eqn:E.
  assert (Hreply : exists review,
             reply = Send 201 (ReviewService.ReviewJson review (Some Sample.cy))).
  { subst r. injection E as _ _ <-. eexists. reflexivity. }
  destruct Hreply as [review ->].
  exists review. split; [reflexivity |].
  destruct (create_stores_and_links Sample.creation_deps _ _ _ _ _ _ _ _ _ _ E)
    as (Hload & _ & Hauthor & _).
  split; [exact Hload | exact Hauthor].
Defined.

(** X11. A create request that is not answered 201 writes neither a
    review nor a book: that covers a missing review object (400), an
    unknown requester (401), a suspended requester (400), a book that is
    not stored (400) and a review refused on save. *)
Theorem create_failure_writes_nothing
        (D : ReviewCreation.Deps) (users : User.collection)
        (reviews : Review.collection) (books : Book.collection)
        (now : Z) (payload_id : nat)
        (body_review : option ReviewCreation.create_body) :
  (forall j, snd (ReviewCreation.create users reviews books now payload_id body_review)
             <> Send 201 j) ->
  fst (ReviewCreation.create users reviews books now payload_id body_review)
  = (reviews, books).
Proof.
  unfold ReviewCreation.create. intros H.
  destruct body_review as [b|]; [| reflexivity].
  destruct (User.findById users payload_id) as [user|]; [| reflexivity].
  destruct (User.suspended user || Js.gt_now (User.suspension_timeline user) now);
    [reflexivity |].
  destruct (Book.findById books (ReviewCreation.book_id b)) as [book|];
    [| reflexivity].
  destruct (ReviewCreation.save_ok _); [| reflexivity].
  exfalso. eapply H. reflexivity.
Qed.

Lemma create_failure_writes_nothing_witness :
  fst (ReviewCreation.create (D := Sample.creation_deps) Sample.users Sample.reviews
         Sample.books 5000 3
         (Some (ReviewCreation.mkCreate (Some 404) (Some "lost") None)))
  = (Sample.reviews, Sample.books).
Proof.
  apply create_failure_writes_nothing. intros j. discriminate.
Defined.

(** X12. A requester who is marked suspended, or whose suspension date is
    still ahead, can neither create a review nor update one of their own:
    both requests are answered 400 and write nothing. *)
Theorem suspended_cannot_write_reviews
        (D : ReviewCreation.Deps) (R : ReviewService.Deps)
        (users : User.collection) (reviews : Review.collection)
        (books : Book.collection) (now : Z) (payload_id : nat) (user : User.doc) :
  User.findById users payload_id = Some user ->
  User.suspended user = true
  \/ Js.gt_now (User.suspension_timeline user) now = true ->
  (forall b,
      ReviewCreation.create users reviews books now payload_id (Some b)
      = (reviews, books,
         Send 400 (ReviewService.ErrorMessage "Suspended users cannot make reviews!")))
  /\ (forall review p,
         Review.review_author review = payload_id ->
         ReviewService.update users reviews now payload_id review (Some p)
         = (reviews,
            Send 400 (ReviewService.ErrorMessage "Suspended users cannot make reviews!"))).
Proof.
  intros Hu Hs.
  assert (Hor : User.suspended user || Js.gt_now (User.suspension_timeline user) now
                = true)
    by (apply orb_true_iff; exact Hs).
  split.
  - intros b. unfold ReviewCreation.create. rewrite Hu, Hor. reflexivity.
  - intros review p Hauthor.
    unfold ReviewService.update, ReviewService.populated_author.
    rewrite Hauthor, Hu. cbv iota beta.
    rewrite (findById_id _ _ _ Hu), Nat.eqb_refl, Hor. reflexivity.
Qed.

Lemma suspended_cannot_write_reviews_witness :
  User.findById Sample.detained 6 = Some Sample.zed
  /\ ReviewCreation.create (D := Sample.creation_deps) Sample.detained Sample.reviews
       Sample.books 1000 6 (Some Sample.praise)
     = (Sample.reviews, Sample.books,
        Send 400 (ReviewService.ErrorMessage "Suspended users cannot make reviews!")).
Proof.
  split; [reflexivity |].
  destruct (suspended_cannot_write_reviews Sample.creation_deps Sample.review_deps
              Sample.detained Sample.reviews Sample.books 1000 6 Sample.zed
              eq_refl (or_introl eq_refl)) as [Hcreate _].
  apply Hcreate.
Defined.

(** ** Review update by its author *)

(** X13. An author who is stored and not suspended gets 200 with the
    review in which [content] and [tags] are replaced where the request
    supplies them; id, author, book, favorite count and creation date are
    kept, and this review is what is handed to [updateOne]. *)
Theorem update_by_author
        (R : ReviewService.Deps) (users : User.collection)
        (reviews : Review.collection) (now : Z) (payload_id : nat)
        (review : Review.doc) (p : ReviewService.patch) (user : User.doc) :
  Review.review_author review = payload_id ->
  User.findById users payload_id = Some user ->
  User.suspended user = false ->
  Js.gt_now (User.suspension_timeline user) now = false ->
  let review' :=
    Review.mk (Review._id review)
              (User.or_keep (ReviewService.p_content p) (Review.content review))
              (User.or_keep (ReviewService.p_tags p) (Review.tags review))
              (Review.review_author review) (Review.book review)
              (Review.favorite_count review) (Review.createdAt review)
              (Review.author review) in
  ReviewService.update users reviews now payload_id review (Some p)
  = (ReviewService.updateOne review' reviews,
     Send 200 (ReviewService.ReviewJson review' (Some user))).
Proof.
  intros Ha Hu Hs Ht review'. subst review' payload_id.
  unfold ReviewService.update, ReviewService.populated_author.
  rewrite Hu. cbv iota beta.
  rewrite (findById_id _ _ _ Hu), Nat.eqb_refl, Hs, Ht. simpl.
  destruct review as [i c t a b f ca au], p as [[pc|] [pt|]]; reflexivity.
Qed.

Lemma update_by_author_witness :
  ReviewService.update (D := Sample.review_deps) Sample.users Sample.reviews
                       5000 1 Sample.review1 (Some Sample.edit)
  = (Sample.reviews,
     Send 200 (ReviewService.ReviewJson
                 (Review.mk 10 "rewritten" ["novel"] 1 100 0 1000 None)
                 (Some Sample.ada))).
Proof.
  exact (update_by_author Sample.review_deps Sample.users Sample.reviews 5000 1
           Sample.review1 Sample.edit Sample.ada eq_refl eq_refl eq_refl eq_refl).
Defined.

(** ** Review delete and reload *)

Lemma remove_findById_other (c : Review.collection) (d : Review.doc) (id : nat) :
  id <> Review._id d ->
  Review.findById (Review.remove c d) id = Review.findById c id.
Proof.
  intros Hne. unfold Review.findById, Review.remove.
  induction c as [|x c IH]; simpl; [reflexivity |].
  destruct (Nat.eqb (Review._id x) (Review._id d)) eqn:E; simpl.
  - apply Nat.eqb_eq in E.
    destruct (Nat.eqb (Review._id x) id) eqn:E'; [| exact IH].
    apply Nat.eqb_eq in E'. congruence.
  - destruct (Nat.eqb (Review._id x) id); [reflexivity | exact IH].
Qed.

Lemma delete_store (users : User.collection) (reviews : Review.collection)
      (user_id : nat) (review : Review.doc) :
  fst (ReviewService.delete users reviews user_id review) = reviews
  \/ fst (ReviewService.delete users reviews user_id review)
     = Review.remove reviews review.
Proof.
  unfold ReviewService.delete.
  destruct (User.findById users user_id) as [user|]; [| left; reflexivity].
  destruct (ReviewService.populated_author users review) as [author|];
    [| left; reflexivity].
  destruct (negb _ && negb _); [left | right]; reflexivity.
Qed.

(** X14. The author of a review can always delete it: the request is
    answered 204 and the review is gone, whatever the author's [user_type]
    and whether or not the author is suspended. *)
Theorem delete_by_author
        (users : User.collection) (reviews : Review.collection)
        (user_id : nat) (review : Review.doc) (user : User.doc) :
  User.findById users user_id = Some user ->
  Review.review_author review = user_id ->
  ReviewService.delete users reviews user_id review
  = (Review.remove reviews review, Send 204 ReviewService.Empty)
  /\ Review.findById (Review.remove reviews review) (Review._id review) = None.
Proof.
  intros Hu Ha. split; [| apply remove_findById].
  unfold ReviewService.delete, ReviewService.populated_author.
  rewrite Ha, Hu. cbv iota beta.
  rewrite (findById_id _ _ _ Hu), Nat.eqb_refl. reflexivity.
Qed.

Lemma delete_by_author_witness :
  User.findById [Sample.zed] 6 = Some Sample.zed
  /\ User.suspended Sample.zed = true
  /\ ReviewService.delete [Sample.zed]
       [Review.mk 12 "mine" [] 6 100 0 1 None] 6
       (Review.mk 12 "mine" [] 6 100 0 1 None)
     = ([], Send 204 ReviewService.Empty).
Proof.
  split; [reflexivity |]. split; [reflexivity |].
  destruct (delete_by_author [Sample.zed] [Review.mk 12 "mine" [] 6 100 0 1 None] 6
              (Review.mk 12 "mine" [] 6 100 0 1 None) Sample.zed eq_refl eq_refl)
    as [Hdel _].
  exact Hdel.
Defined.

(** X15. Whatever the outcome of a delete request, every review with
    another id stays stored as it was. *)
Theorem delete_keeps_other_reviews
        (users : User.collection) (reviews : Review.collection)
        (user_id : nat) (review : Review.doc) (id : nat) :
  id <> Review._id review ->
  Review.findById (fst (ReviewService.delete users reviews user_id review)) id
  = Review.findById reviews id.
Proof.
  intros Hne.
  destruct (delete_store users reviews user_id review) as [-> | ->];
    [reflexivity | apply remove_findById_other, Hne].
Qed.

Lemma delete_keeps_other_reviews_witness :
  11 <> Review._id Sample.review1
  /\ Review.findById
       (fst (ReviewService.delete Sample.users Sample.reviews 1 Sample.review1)) 11
     = Some Sample.review2.
Proof.
  assert (Hne : 11 <> Review._id Sample.review1) by discriminate.
  split; [exact Hne |].
  rewrite (delete_keeps_other_reviews Sample.users Sample.reviews 1 Sample.review1
             11 Hne).
  reflexivity.
Defined.

(** X16. After a delete answered 204, loading the review by the route
    parameter gives the 404 answer: the deleted review cannot be fetched,
    updated or deleted again. *)
Theorem preload_after_delete
        (users : User.collection) (reviews : Review.collection)
        (user_id : nat) (review : Review.doc) :
  snd (ReviewService.delete users reviews user_id review)
  = Send 204 ReviewService.Empty ->
  ReviewService.preloadReview
    (fst (ReviewService.delete users reviews user_id review)) (Review._id review)
  = inl (Send 404 (ReviewService.ErrorMessage
                     "The review you are looking for does not exist.")).
Proof.
  unfold ReviewService.delete.
  destruct (User.findById users user_id) as [user|]; [| discriminate].
  destruct (ReviewService.populated_author users review) as [author|];
    [| discriminate].
  destruct (negb _ && negb _); [discriminate |]. intros _. simpl.
  unfold ReviewService.preloadReview. rewrite remove_findById. reflexivity.
Qed.

Lemma preload_after_delete_witness :
  ReviewService.preloadReview Sample.reviews 10 = inr Sample.review1
  /\ ReviewService.preloadReview
       (fst (ReviewService.delete Sample.users Sample.reviews 1 Sample.review1)) 10
     = inl (Send 404 (ReviewService.ErrorMessage
                        "The review you are looking for does not exist.")).
Proof.
  split; [reflexivity |].
  exact (preload_after_delete Sample.users Sample.reviews 1 Sample.review1 eq_refl).
Defined.

(** ** Review list: order, page and filter *)

Lemma insert_desc_In (d x : Review.doc) (l : list Review.doc) :
  In x (Review.insert_desc d l) <-> x = d \/ In x l.
Proof.
  induction l as [|y l IH]; simpl.
  - split; intros [H | H]; auto.
  - destruct (Z.ltb (Review.createdAt d) (Review.createdAt y)); simpl.
    + rewrite IH. split; intros H; intuition.
    + split; intros H; intuition.
Qed.

Lemma insert_desc_length (d : Review.doc) (l : list Review.doc) :
  List.length (Review.insert_desc d l) = S (List.length l).
Proof.
  induction l as [|y l IH]; simpl; [reflexivity |].
  destruct (Z.ltb (Review.createdAt d) (Review.createdAt y)); simpl;
    [rewrite IH |]; reflexivity.
Qed.

Lemma insert_desc_sorted (d : Review.doc) (l : list Review.doc) :
  StronglySorted Review.newer_first l ->
  StronglySorted Review.newer_first (Review.insert_desc d l).
Proof.
  induction 1 as [|y l Hl IH Hy]; simpl.
  - repeat constructor.
  - destruct (Z.ltb (Review.createdAt d) (Review.createdAt y)) eqn:E.
    + apply Z.ltb_lt in E. constructor; [exact IH |].
      apply Forall_forall. intros x Hx. apply insert_desc_In in Hx.
      destruct Hx as [-> | Hx].
      * unfold Review.newer_first. lia.
      * rewrite Forall_forall in Hy. apply Hy, Hx.
    + apply Z.ltb_ge in E. constructor; [constructor; assumption |].
      constructor; [exact E |].
      rewrite Forall_forall in *. intros x Hx.
      specialize (Hy x Hx). unfold Review.newer_first in *. lia.
Qed.

Lemma sort_desc_sorted (l : list Review.doc) :
  StronglySorted Review.newer_first (Review.sort_desc l).
Proof.
  unfold Review.sort_desc. induction l as [|d l IH]; simpl.
  - constructor.
  - apply insert_desc_sorted, IH.
Qed.

Lemma sort_desc_In (x : Review.doc) (l : list Review.doc) :
  In x (Review.sort_desc l) <-> In x l.
Proof.
  unfold Review.sort_desc. induction l as [|d l IH]; simpl; [reflexivity |].
  rewrite insert_desc_In, IH. split; intros [H | H]; auto.
Qed.

Lemma sort_desc_length (l : list Review.doc) :
  List.length (Review.sort_desc l) = List.length l.
Proof.
  unfold Review.sort_desc. induction l as [|d l IH]; simpl; [reflexivity |].
  rewrite insert_desc_length, IH. reflexivity.
Qed.

Lemma sorted_skipn {A : Type} (R : A -> A -> Prop) (n : nat) (l : list A) :
  StronglySorted R l -> StronglySorted R (skipn n l).
Proof.
  revert l. induction n as [|n IH]; intros l Hl; simpl; [exact Hl |].
  destruct l as [|x l]; [constructor |].
  apply IH. inversion Hl; assumption.
Qed.

Lemma sorted_firstn {A : Type} (R : A -> A -> Prop) (n : nat) (l : list A) :
  StronglySorted R l -> StronglySorted R (firstn n l).
Proof.
  revert l. induction n as [|n IH]; intros l Hl; simpl; [constructor |].
  destruct l as [|x l]; [constructor |].
  inversion Hl as [|x' l' Hl' Hx]; subst. constructor; [apply IH, Hl' |].
  rewrite Forall_forall in *. intros y Hy. apply Hx.
  rewrite <- (firstn_skipn n l). apply in_or_app. left. exact Hy.
Qed.

Lemma limit_incl (n : option nat) (l : list Review.doc) (x : Review.doc) :
  In x (Review.limit n l) -> In x l.
Proof.
  destruct n as [[|n]|]; simpl; trivial.
  destruct l as [|y l]; simpl; [trivial |].
  intros [H | H]; [left; exact H | right].
  rewrite <- (firstn_skipn n l). apply in_or_app. left. exact H.
Qed.

Lemma limit_length (n : option nat) (l : list Review.doc) :
  List.length (Review.limit n l) <= List.length l.
Proof.
  destruct n as [[|n]|]; simpl; try lia.
  destruct l as [|y l]; simpl; [lia |].
  rewrite length_firstn. lia.
Qed.

Lemma find_In (c : Review.collection) (q : Review.query) (l : option nat) (o : nat)
      (x : Review.doc) :
  In x (Review.find c q l o) -> In x c /\ Review.matches q x = true.
Proof.
  unfold Review.find. intros H.
  apply limit_incl in H.
  assert (Hs : In x (Review.sort_desc (filter (Review.matches q) c))).
  { rewrite <- (firstn_skipn o (Review.sort_desc _)). apply in_or_app. right. exact H. }
  apply sort_desc_In, filter_In in Hs. exact Hs.
Qed.

Lemma find_length (c : Review.collection) (q : Review.query) (l : option nat) (o : nat) :
  List.length (Review.find c q l o) <= Review.count c q - o.
Proof.
  unfold Review.find, Review.count.
  eapply Nat.le_trans; [apply limit_length |].
  rewrite length_skipn, sort_desc_length. lia.
Qed.

Lemma list_inv (users : User.collection) (reviews : Review.collection)
      (q : ReviewService.list_query) (payload : option nat)
      (found : list Review.doc) (viewer : option User.doc) (n : nat) :
  ReviewService.list users reviews q payload
  = Send 200 (ReviewService.ReviewsJson found viewer n) ->
  found = Review.find reviews (ReviewService.build_query users q)
            (ReviewService.limit q)
            (match ReviewService.offset q with Some o => o | None => 0 end)
  /\ n = Review.count reviews (ReviewService.build_query users q).
Proof.
  unfold ReviewService.list. intros H. injection H as <- _ <-. split; reflexivity.
Qed.


(** X18. The reviews of a list answer come newest first: each one was
    created no earlier than every review after it. *)
Theorem list_newest_first
        (users : User.collection) (reviews : Review.collection)
        (q : ReviewService.list_query) (payload : option nat)
        (found : list Review.doc) (viewer : option User.doc) (n : nat) :
  ReviewService.list users reviews q payload
  = Send 200 (ReviewService.ReviewsJson found viewer n) ->
  StronglySorted Review.newer_first found.
Proof.
  intros H. apply list_inv in H. destruct H as [-> _].
  unfold Review.find.
  assert (Hs : StronglySorted Review.newer_first
                 (skipn (match ReviewService.offset q with Some o => o | None => 0 end)
                        (Review.sort_desc
                           (filter (Review.matches (ReviewService.build_query users q))
                                   reviews))))
    by apply sorted_skipn, sort_desc_sorted.
  destruct (ReviewService.limit q) as [[|k]|]; simpl; try exact Hs.
  apply (sorted_firstn _ (S k)), Hs.
Qed.

Lemma list_newest_first_witness :
  StronglySorted Review.newer_first [Sample.review2; Sample.review1].
Proof.
  apply (list_newest_first Sample.users Sample.reviews
           (ReviewService.mkListQuery None None None None None) None
           [Sample.review2; Sample.review1] None 2).
  reflexivity.
Defined.

(** X19. Every review of a list answer is a stored review that passes
    the filters of the request: it carries the requested tag, and when
    [favorited] names a stored user, it is among that user's favorites. *)
Theorem list_results_match
        (users : User.collection) (reviews : Review.collection)
        (q : ReviewService.list_query) (payload : option nat)
        (found : list Review.doc) (viewer : option User.doc) (n : nat)
        (d : Review.doc) :
  ReviewService.list users reviews q payload
  = Send 200 (ReviewService.ReviewsJson found viewer n) ->
  In d found ->
  In d reviews
  /\ (forall t, ReviewService.tags q = Some t -> In t (Review.tags d))
  /\ (forall name f,
         ReviewService.favorited q = Some name -> name <> "" ->
         User.findOne_username users name = Some f ->
         In (Review._id d) (User.favorites f)).
Proof.
  intros H Hd. apply list_inv in H. destruct H as [-> _].
  apply find_In in Hd. destruct Hd as [Hin Hm]. split; [exact Hin |].
  unfold Review.matches in Hm.
  apply andb_true_iff in Hm. destruct Hm as [Hm Hid].
  apply andb_true_iff in Hm. destruct Hm as [Htag _].
  split.
  - intros t Ht. unfold ReviewService.build_query in Htag. simpl in Htag.
    rewrite Ht in Htag. apply existsb_exists in Htag.
    destruct Htag as (t' & Hin' & Heq). apply String.eqb_eq in Heq. subst t'.
    exact Hin'.
  - intros name f Hfav Hname Hf.
    unfold ReviewService.build_query, ReviewService.lookup_username in Hid.
    simpl in Hid. rewrite Hfav in Hid. unfold Js.present in Hid. simpl in Hid.
    apply String.eqb_neq in Hname. rewrite Hname in Hid. simpl in Hid.
    rewrite Hf in Hid. apply existsb_exists in Hid.
    destruct Hid as (i & Hin' & Heq). apply Nat.eqb_eq in Heq. subst i.
    exact Hin'.
Qed.

Lemma list_results_match_witness :
  In Sample.review1 [Sample.review1]
  /\ In "novel" (Review.tags Sample.review1).
Proof.
  assert (Hin : In Sample.review1 [Sample.review1]) by (left; reflexivity).
  split; [exact Hin |].
  destruct (list_results_match Sample.users Sample.reviews
              (ReviewService.mkListQuery None None (Some "novel") None None) None
              [Sample.review1] None 1 Sample.review1 eq_refl Hin) as (_ & Htag & _).
  apply Htag. reflexivity.
Defined.

(** X20. An [author] parameter that names no stored user filters
    nothing: the answer is the one of the same request without the
    parameter (where an unknown [favorited] empties the answer). *)
Theorem list_unknown_author_unfiltered
        (users : User.collection) (reviews : Review.collection)
        (q : ReviewService.list_query) (payload : option nat) (name : string) :
  ReviewService.author q = Some name ->
  User.findOne_username users name = None ->
  ReviewService.list users reviews q payload
  = ReviewService.list users reviews
      (ReviewService.mkListQuery (ReviewService.limit q) (ReviewService.offset q)
                                 (ReviewService.tags q) None
                                 (ReviewService.favorited q))
      payload.
Proof.
  intros Ha Hnone.
  assert (Hq : ReviewService.build_query users q
               = ReviewService.build_query users
                   (ReviewService.mkListQuery
                      (ReviewService.limit q) (ReviewService.offset q)
                      (ReviewService.tags q) None (ReviewService.favorited q))).
  { unfold ReviewService.build_query, ReviewService.lookup_username. simpl.
    rewrite Ha. unfold Js.present, Js.text. simpl.
    destruct (String.eqb name ""); simpl; rewrite ?Hnone; reflexivity. }
  unfold ReviewService.list. rewrite Hq. reflexivity.
Qed.

Lemma list_unknown_author_unfiltered_witness :
  User.findOne_username Sample.users "nobody" = None
  /\ ReviewService.list Sample.users Sample.reviews
       (ReviewService.mkListQuery None None None (Some "nobody") None) None
     = Send 200 (ReviewService.ReviewsJson [Sample.review2; Sample.review1] None 2).
Proof.
  split; [reflexivity |].
  rewrite (list_unknown_author_unfiltered Sample.users Sample.reviews
             (ReviewService.mkListQuery None None None (Some "nobody") None)
             None "nobody" eq_refl eq_refl).
  reflexivity.
Defined.

(** X21. A positive [limit] bounds the page, and an [offset] at or past
    the number of matching reviews gives an empty page with the full
    [reviewsCount]. *)
Theorem list_page_bounds
        (users : User.collection) (reviews : Review.collection)
        (q : ReviewService.list_query) (payload : option nat)
        (found : list Review.doc) (viewer : option User.doc) (n : nat) :
  ReviewService.list users reviews q payload
  = Send 200 (ReviewService.ReviewsJson found viewer n) ->
  (forall k, ReviewService.limit q = Some (S k) -> List.length found <= S k)
  /\ (forall o, ReviewService.offset q = Some o -> n <= o -> found = []).
Proof.
  intros H. apply list_inv in H. destruct H as [-> ->]. split.
  - intros k Hk. unfold Review.find. rewrite Hk.
    change (Review.limit (Some (S k))) with (@firstn Review.doc (S k)).
    apply firstn_le_length.
  - intros o Ho Hle. rewrite Ho.
    apply length_zero_iff_nil.
    assert (Hlen := find_length reviews (ReviewService.build_query users q)
                      (ReviewService.limit q) o).
    lia.
Qed.

Lemma list_page_bounds_witness :
  ReviewService.list Sample.users Sample.reviews
    (ReviewService.mkListQuery (Some 1) (Some 1) None None None) None
  = Send 200 (ReviewService.ReviewsJson [Sample.review1] None 2)
  /\ List.length [Sample.review1] <= 1.
Proof.
  split; [reflexivity |].
  destruct (list_page_bounds Sample.users Sample.reviews
              (ReviewService.mkListQuery (Some 1) (Some 1) None None None) None
              [Sample.review1] None 2 eq_refl) as [Hlimit _].
  apply (Hlimit 0). reflexivity.
Defined.

(** ** Genres: create, update and delete together *)

Lemma genre_fresh_id_above (c : Genre.collection) (d : Genre.doc) :
  In d c -> Genre._id d < Genre.fresh_id c.
Proof.
  intros Hin. unfold Genre.fresh_id.
  assert (Genre._id d <= list_max (map Genre._id c))
    by (apply list_max_bound, in_map, Hin).
  lia.
Qed.

Lemma genre_remove_absent (c : Genre.collection) (id : nat) :
  (forall d, In d c -> Genre._id d <> id) ->
  Genre.findByIdAndRemove c id = c.
Proof.
  unfold Genre.findByIdAndRemove. induction c as [|d c IH]; simpl; [reflexivity |].
  intros Hall.
  assert (E : Genre.has_id id d = false)
    by (apply Nat.eqb_neq, Hall; left; reflexivity).
  rewrite E. simpl. f_equal. apply IH. intros x Hx. apply Hall. right. exact Hx.
Qed.

Lemma genre_remove_other (c : Genre.collection) (id id' : nat) :
  id' <> id ->
  Genre.findById (Genre.findByIdAndRemove c id) id' = Genre.findById c id'.
Proof.
  intros Hne. unfold Genre.findById, Genre.findByIdAndRemove.
  induction c as [|d c IH]; simpl; [reflexivity |].
  unfold Genre.has_id in *.
  destruct (Nat.eqb (Genre._id d) id) eqn:E; simpl.
  - apply Nat.eqb_eq in E.
    destruct (Nat.eqb (Genre._id d) id') eqn:E'; [| exact IH].
    apply Nat.eqb_eq in E'. congruence.
  - destruct (Nat.eqb (Genre._id d) id'); [reflexivity | exact IH].
Qed.

Lemma genre_update_findById (c : Genre.collection) (id id' : nat) (g : Genre.doc) :
  Genre._id g = id ->
  Genre.findById (fst (Genre.findByIdAndUpdate c id g)) id'
  = if Nat.eqb id' id
    then option_map (fun _ => g) (Genre.findById c id)
    else Genre.findById c id'.
Proof.
  intros Hg. unfold Genre.findByIdAndUpdate, Genre.findById, Genre.has_id. simpl.
  induction c as [|d c IH]; simpl.
  - destruct (Nat.eqb id' id); reflexivity.
  - destruct (Nat.eqb_spec (Genre._id d) id) as [Ed | Ed].
    + rewrite Hg. destruct (Nat.eqb_spec id id') as [Ei | Ei].
      * subst id'. rewrite Nat.eqb_refl. reflexivity.
      * rewrite IH. destruct (Nat.eqb_spec id' id) as [Ej | Ej]; [congruence |].
        destruct (Nat.eqb_spec (Genre._id d) id'); [congruence | reflexivity].
    + destruct (Nat.eqb_spec (Genre._id d) id') as [Ei | Ei].
      * subst id'. destruct (Nat.eqb_spec (Genre._id d) id); [congruence | reflexivity].
      * exact IH.
Qed.

Lemma genre_update_absent (c : Genre.collection) (id : nat) (g : Genre.doc) :
  Genre.findById c id = None ->
  fst (Genre.findByIdAndUpdate c id g) = c.
Proof.
  unfold Genre.findByIdAndUpdate, Genre.findById. simpl.
  induction c as [|d c IH]; simpl; [reflexivity |].
  destruct (Genre.has_id id d); [discriminate |].
  intros H. f_equal. apply IH, H.
Qed.

Lemma genre_create_post_saved
      (D : GenreController.Deps) (genres genres' : Genre.collection)
      (name : string) (u : string) :
  GenreController.genre_create_post genres name = (genres', RedirectTo u) ->
  genres' <> genres ->
  let genre := Genre.mk (Genre.fresh_id genres) (GenreController.sanitized name) in
  GenreController.notEmpty name = true
  /\ Genre.findOne_name genres (GenreController.sanitized name) = None
  /\ genres' = (genres ++ [genre])%list
  /\ u = GenreController.url genre.
Proof.
  unfold GenreController.genre_create_post. intros H Hchanged.
  destruct (GenreController.notEmpty name); simpl in H; [| discriminate].
  destruct (Genre.findOne_name genres (GenreController.sanitized name)).
  - injection H as <- _. contradiction Hchanged; reflexivity.
  - destruct (GenreController.save_ok _); [| discriminate].
    injection H as <- <-. repeat split.
Qed.

(** X22. Submitting the same genre name again after it was saved saves
    nothing more: the second request redirects to the page the first one
    redirected to. *)
Theorem genre_create_post_twice
        (D : GenreController.Deps) (genres genres' : Genre.collection)
        (name : string) (u : string) :
  GenreController.genre_create_post genres name = (genres', RedirectTo u) ->
  genres' <> genres ->
  GenreController.genre_create_post genres' name = (genres', RedirectTo u).
Proof.
  intros H Hchanged.
  destruct (genre_create_post_saved D _ _ _ _ H Hchanged) as (Hv & Hnone & -> & ->).
  unfold GenreController.genre_create_post. rewrite Hv. simpl.
  unfold Genre.findOne_name in *. rewrite (find_app_r _ _ _ Hnone). simpl.
  rewrite String.eqb_refl. reflexivity.
Qed.

Lemma genre_create_post_twice_witness :
  GenreController.genre_create_post (D := Sample.genre_deps) Sample.genres "Travel"
  = ((Sample.genres ++ [Genre.mk 3 "Travel"])%list, RedirectTo "/catalog/genre/Travel")
  /\ GenreController.genre_create_post (D := Sample.genre_deps)
       (Sample.genres ++ [Genre.mk 3 "Travel"])%list "Travel"
     = ((Sample.genres ++ [Genre.mk 3 "Travel"])%list, RedirectTo "/catalog/genre/Travel").
Proof.
  split; [reflexivity |].
  apply (genre_create_post_twice Sample.genre_deps Sample.genres);
    [reflexivity | discriminate].
Defined.

(** X23. A genre that was just saved, and that no book references, is
    removed again by a delete request on its id, which leaves the
    collection exactly as it was before the genre was created. *)
Theorem genre_create_then_delete
        (D : GenreController.Deps) (genres genres' : Genre.collection)
        (books : Book.collection) (name : string) (u : string) :
  GenreController.genre_create_post genres name = (genres', RedirectTo u) ->
  genres' <> genres ->
  (forall b, In b books -> ~ In (Genre.fresh_id genres) (Book.genre b)) ->
  GenreController.genre_delete_post genres' books (Genre.fresh_id genres)
  = (genres, RedirectTo "/catalog/genres").
Proof.
  intros H Hchanged Hfree.
  destruct (genre_create_post_saved D _ _ _ _ H Hchanged) as (_ & _ & -> & _).
  rewrite genre_delete_post_removes by (apply find_genre_nil, Hfree).
  f_equal. unfold Genre.findByIdAndRemove. rewrite filter_app. simpl.
  unfold Genre.has_id at 2. simpl. rewrite Nat.eqb_refl. simpl.
  rewrite app_nil_r. apply genre_remove_absent.
  intros d Hd. apply genre_fresh_id_above in Hd. lia.
Qed.

Lemma genre_create_then_delete_witness :
  GenreController.genre_delete_post (Sample.genres ++ [Genre.mk 3 "Travel"])%list
                                    Sample.books 3
  = (Sample.genres, RedirectTo "/catalog/genres").
Proof.
  apply (genre_create_then_delete Sample.genre_deps Sample.genres _ Sample.books
           "Travel" "/catalog/genre/Travel").
  - reflexivity.
  - discriminate.
  - intros b [<- | []] [H | []]. discriminate H.
Defined.

(** X24. Whatever the outcome of a genre delete request, every genre
    with another id stays stored as it was. *)
Theorem genre_delete_post_keeps_others
        (genres : Genre.collection) (books : Book.collection) (genreid id : nat) :
  id <> genreid ->
  Genre.findById (fst (GenreController.genre_delete_post genres books genreid)) id
  = Genre.findById genres id.
Proof.
  intros Hne. unfold GenreController.genre_delete_post.
  destruct (Nat.ltb 0 _); simpl; [reflexivity | apply genre_remove_other, Hne].
Qed.

Lemma genre_delete_post_keeps_others_witness :
  1 <> 2
  /\ Genre.findById (fst (GenreController.genre_delete_post Sample.genres Sample.books 2)) 1
     = Some Sample.fantasy.
Proof.
  assert (Hne : 1 <> 2) by discriminate.
  split; [exact Hne |].
  rewrite (genre_delete_post_keeps_others Sample.genres Sample.books 2 1 Hne).
  reflexivity.
Defined.

(** X25. An update request with a name that passes the check, on a
    stored genre, stores the escaped and trimmed name under the same id,
    leaves every other genre as it was, and redirects to the URL of the
    genre as it was before the update. *)
Theorem genre_update_post_renames
        (D : GenreController.Deps) (genres : Genre.collection)
        (params_id : nat) (name : string) (old : Genre.doc) :
  GenreController.notEmpty name = true ->
  Genre.findById genres params_id = Some old ->
  let r := GenreController.genre_update_post genres params_id name in
  snd r = GenreController.Replied (RedirectTo (GenreController.url old))
  /\ Genre.findById (fst r) params_id
     = Some (Genre.mk params_id (GenreController.sanitized name))
  /\ (forall id, id <> params_id ->
                 Genre.findById (fst r) id = Genre.findById genres id)
  /\ List.length (fst r) = List.length genres.
Proof.
  intros Hv Hold r. subst r. unfold GenreController.genre_update_post.
  rewrite Hv. simpl negb. cbv iota.
  destruct (Genre.findByIdAndUpdate genres params_id
              (Genre.mk params_id (GenreController.sanitized name)))
    as [genres' thegenre] eqn:E.
  assert (Hfst : genres' = fst (Genre.findByIdAndUpdate genres params_id
                                  (Genre.mk params_id (GenreController.sanitized name))))
    by (rewrite E; reflexivity).
  assert (Hsnd : thegenre = Some old)
    by (unfold Genre.findByIdAndUpdate in E; injection E as _ <-; exact Hold).
  subst thegenre. simpl. split; [reflexivity |]. split; [| split].
  - rewrite Hfst, genre_update_findById by reflexivity.
    rewrite Nat.eqb_refl, Hold. reflexivity.
  - intros id Hne. rewrite Hfst, genre_update_findById by reflexivity.
    apply Nat.eqb_neq in Hne. rewrite Hne. reflexivity.
  - rewrite Hfst. unfold Genre.findByIdAndUpdate. simpl. apply length_map.
Qed.

Lemma genre_update_post_renames_witness :
  Genre.findById Sample.genres 2 = Some Sample.poetry
  /\ GenreController.genre_update_post (D := Sample.genre_deps) Sample.genres 2 "Verse"
     = ([Sample.fantasy; Genre.mk 2 "Verse"],
        GenreController.Replied (RedirectTo "/catalog/genre/Poetry")).
Proof.
  split; [reflexivity |].
  destruct (genre_update_post_renames Sample.genre_deps Sample.genres 2 "Verse"
              Sample.poetry eq_refl eq_refl) as (Hreply & _).
  rewrite (surjective_pairing (GenreController.genre_update_post _ _ _)).
  rewrite Hreply. reflexivity.
Defined.

(** X26. An update request on an id that is not stored creates nothing:
    the collection stays as it was and the handler's callback throws on
    the missing document instead of answering; an update whose name fails
    the check renders the form again and writes nothing either. *)
Theorem genre_update_post_writes_nothing
        (D : GenreController.Deps) (genres : Genre.collection)
        (params_id : nat) (name : string) :
  GenreController.notEmpty name = false
  \/ Genre.findById genres params_id = None ->
  fst (GenreController.genre_update_post genres params_id name) = genres
  /\ (GenreController.notEmpty name = true ->
      snd (GenreController.genre_update_post genres params_id name)
      = GenreController.Thrown TypeError).
Proof.
  unfold GenreController.genre_update_post.
  intros [Hv | Hnone].
  - rewrite Hv. simpl. split; [reflexivity | discriminate].
  - destruct (GenreController.notEmpty name); simpl; [| split; [reflexivity | discriminate]].
    assert (Hfst := genre_update_absent genres params_id
                      (Genre.mk params_id (GenreController.sanitized name)) Hnone).
    unfold Genre.findByIdAndUpdate in *. simpl in *. rewrite Hnone, Hfst.
    split; reflexivity.
Qed.

Lemma genre_update_post_writes_nothing_witness :
  Genre.findById Sample.genres 9 = None
  /\ GenreController.genre_update_post (D := Sample.genre_deps) Sample.genres 9 "Verse"
     = (Sample.genres, GenreController.Thrown TypeError).
Proof.
  split; [reflexivity |].
  destruct (genre_update_post_writes_nothing Sample.genre_deps Sample.genres 9 "Verse"
              (or_intror eq_refl)) as [Hstore Hthrown].
  rewrite (surjective_pairing (GenreController.genre_update_post _ _ _)).
  rewrite Hstore, (Hthrown eq_refl). reflexivity.
Defined.

(** X27. The update handler does not look for a genre of the same name:
    renaming a stored genre to the name of another stored genre leaves
    two stored genres with that name, which the create handler refuses to
    produce. *)
Theorem genre_update_post_duplicates_name
        (D : GenreController.Deps) (genres : Genre.collection)
        (id1 id2 : nat) (g1 g2 : Genre.doc) (name : string) :
  GenreController.notEmpty name = true ->
  Genre.findById genres id1 = Some g1 ->
  Genre.findById genres id2 = Some g2 ->
  id1 <> id2 ->
  Genre.name g1 = GenreController.sanitized name ->
  let genres' := fst (GenreController.genre_update_post genres id2 name) in
  option_map Genre.name (Genre.findById genres' id1) = Some (GenreController.sanitized name)
  /\ option_map Genre.name (Genre.findById genres' id2)
     = Some (GenreController.sanitized name)
  /\ fst (GenreController.genre_create_post genres name) = genres.
Proof.
  intros Hv H1 H2 Hne Hname genres'. subst genres'.
  unfold GenreController.genre_update_post, GenreController.genre_create_post.
  rewrite Hv. simpl negb. cbv iota.
  destruct (Genre.findByIdAndUpdate genres id2
              (Genre.mk id2 (GenreController.sanitized name)))
    as [genres' thegenre] eqn:E.
  assert (Hfst : genres' = fst (Genre.findByIdAndUpdate genres id2
                                  (Genre.mk id2 (GenreController.sanitized name))))
    by (rewrite E; reflexivity).
  assert (Hg : fst (match thegenre with
                    | Some g => (genres', GenreController.Replied
                                            (RedirectTo (GenreController.url g)))
                    | None => (genres', GenreController.Thrown TypeError)
                    end) = genres')
    by (destruct thegenre; reflexivity).
  rewrite Hg, Hfst. split; [| split].
  - rewrite genre_update_findById by reflexivity.
    apply Nat.eqb_neq in Hne. rewrite Hne, H1. simpl. rewrite Hname. reflexivity.
  - rewrite genre_update_findById by reflexivity.
    rewrite Nat.eqb_refl, H2. reflexivity.
  - destruct (findOne_name_some genres (GenreController.sanitized name))
      as (found & Hfound & _).
    + exists g1. split; [| exact Hname].
      unfold Genre.findById in H1. apply find_some in H1. apply H1.
    + rewrite Hfound. reflexivity.
Qed.

Lemma genre_update_post_duplicates_name_witness :
  map Genre.name
      (fst (GenreController.genre_update_post (D := Sample.genre_deps)
              Sample.genres 2 "Fantasy"))
  = ["Fantasy"; "Fantasy"]
  /\ option_map Genre.name
       (Genre.findById
          (fst (GenreController.genre_update_post (D := Sample.genre_deps)
                  Sample.genres 2 "Fantasy")) 2)
     = Some "Fantasy".
Proof.
  split; [reflexivity |].
  assert (Hne : 1 <> 2) by discriminate.
  destruct (genre_update_post_duplicates_name Sample.genre_deps Sample.genres 1 2
              Sample.fantasy Sample.poetry "Fantasy" eq_refl eq_refl eq_refl Hne
              eq_refl) as (_ & Hsecond & _).
  exact Hsecond.
Defined.
